(** * simqueue.db: the query, project-status and quota functions of the
    job-queue service, as functions over an explicit store.

    The module [api/simqueue/db.py] builds SQL statements with SQLAlchemy
    and runs them on one PostgreSQL connection.  Here a table is the list of
    its rows in insertion order, [select().where(...)] keeps the rows on
    which every predicate holds, [offset(i).limit(n)] drops [i] rows and
    keeps [n], [fetch_one] takes the first row, [delete().where(...)] drops
    the matching rows, [update().where(...).values(...)] rewrites them and
    [insert()] appends a row; offsets and page sizes are natural numbers.
    The connection is taken as open
    ([database.connect()] does nothing on an open connection).  Of the
    constraints the tables declare, the store checks the primary key of the
    project table and the foreign key from a quota to its project: a
    statement that breaks one raises and changes no row.  The key of a quota
    comes from the sequence of its table; a property that needs the keys
    already stored to be unique states it as a hypothesis on the store.

    Python values that cross a function boundary untyped are values of
    [pyval]; an exception is the [Raise] case of [result]. *)

From Stdlib Require Import ZArith Floats.
From stdpp Require Import gmap strings list fin_maps.

#[local] Set Warnings "-register-all".
#[local] Open Scope Z_scope.

(** ** Python values *)

Inductive pyval : Type :=
| PNone
| PBool (b : bool)
| PInt (z : Z)
| PFloat (f : float)
| PStr (s : string)
| PDate (d : Z)
| PDateTime (t : Z)
| PList (l : list pyval)
| PDict (d : gmap string pyval).

Abbreviation pydict := (gmap string pyval).

(** [bool(v)]: the truth value Python gives to [v] in an [if]. *)
Definition truthy (v : pyval) : bool :=
  match v with
  | PNone => false
  | PBool b => b
  | PInt z => negb (z =? 0)
  | PFloat f => negb (PrimFloat.eqb f 0%float)
  | PStr s => negb (bool_decide (s = ""%string))
  | PDate _ | PDateTime _ => true
  | PList l => negb (bool_decide (length l = 0%nat))
  | PDict d => negb (bool_decide (size d = 0%nat))
  end.

(** [v is not None] *)
Definition is_not_none (v : pyval) : bool :=
  match v with PNone => false | _ => true end.

(** An argument declared [List[str] = None]. *)
Definition py_of_list (o : option (list string)) : pyval :=
  match o with
  | None => PNone
  | Some l => PList (PStr <$> l)
  end.

(** ** Exceptions *)

Inductive exn : Type :=
| TypeError
| KeyError (k : string)
| IndexError
| JSONDecodeError
| DataError
| DatatypeMismatchError
| UndefinedColumnError
| UniqueViolationError
| ForeignKeyViolationError.

Inductive result (A : Type) : Type :=
| Ok (a : A)
| Raise (e : exn).

Arguments Ok {A} a.
Arguments Raise {A} e.

#[global] Instance result_ret : MRet result := λ A a, Ok a.
#[global] Instance result_bind : MBind result := λ A B f m,
  match m with
  | Ok a => f a
  | Raise e => Raise e
  end.

(** [d.get(k, dflt)], [d[k]] and [l[i]] *)
Definition dict_get (d : pydict) (k : string) (dflt : pyval) : pyval :=
  default dflt (d !! k).

Definition dict_item (d : pydict) (k : string) : result pyval :=
  match d !! k with
  | Some v => Ok v
  | None => Raise (KeyError k)
  end.

Definition list_item {A} (l : list A) (i : nat) : result A :=
  match l !! i with
  | Some v => Ok v
  | None => Raise IndexError
  end.

(** ** Comparing a column with a bound parameter

    [column == value] binds the Python value as it is, and the driver
    encodes it for the type of the column when the statement runs.  The
    two comparisons below are those of a value of the column's type: a
    string for a [String] or [UUID] column (a UUID is written by its text),
    an integer for an [Integer] column.  A value the driver does not take
    for the column (a list for a [String] column, an integer outside
    [int4] for an [Integer] column, text that is no UUID for a [UUID]
    column) makes it raise [DataError] and no row is read or written; the
    comparisons give no match there.  [query_jobs], whose status argument is declared a list,
    raises as the driver does; the properties of the other functions are
    about their store, or are stated for an identifier of the column's
    type. *)

Definition str_col_eq (c : string) (v : pyval) : bool :=
  match v with
  | PStr s => bool_decide (c = s)
  | _ => false
  end.

Definition int_col_eq (c : Z) (v : pyval) : bool :=
  match v with
  | PInt z => bool_decide (c = z)
  | _ => false
  end.

(** What the driver takes for a [String] column, and the range of an
    [Integer] column. *)
Definition str_param_ok (v : pyval) : bool :=
  match v with
  | PStr _ | PNone => true
  | _ => false
  end.

Definition int4 (z : Z) : bool :=
  bool_decide (-2147483648 ≤ z) && bool_decide (z ≤ 2147483647).

Definition bind (ok : bool) : result () :=
  if ok then Ok () else Raise DataError.

(** The text a [UUID] column gives back, and compares by: 36 characters,
    hyphens at 8, 13, 18 and 23, lower-case hexadecimal digits elsewhere. *)
Definition hex_digit (a : Ascii.ascii) : bool :=
  let n := Ascii.nat_of_ascii a in
  (Nat.leb 48 n && Nat.leb n 57) || (Nat.leb 97 n && Nat.leb n 102).

Fixpoint uuid_chars (i : nat) (s : string) : bool :=
  match s with
  | EmptyString => Nat.eqb i 36
  | String a s' =>
      (if existsb (Nat.eqb i) [8; 13; 18; 23]%nat
       then Nat.eqb (Ascii.nat_of_ascii a) 45
       else hex_digit a)
      && uuid_chars (S i) s'
  end.

Definition uuid_text (s : string) : bool := uuid_chars 0 s.

(** ** Tables *)

Record data_item := {
  di_id : Z;
  di_url : option string }.

(** The two join tables [simqueue_job_input_data], [simqueue_job_output_data] *)
Record job_link := {
  link_job_id : Z;
  link_dataitem_id : Z }.

Record job_row := {
  job_id : Z;
  job_code : string;
  job_command : string;
  job_collab_id : string;
  job_user_id : string;
  job_status : string;
  job_hardware_platform : string;
  job_hardware_config : option string;
  job_timestamp_submission : Z;           (* seconds since the epoch, UTC *)
  job_timestamp_completion : option Z;
  job_provenance : option string;
  job_resource_usage : option float }.

Record log_row := {
  log_job_id : Z;
  log_content : string }.

(** [quotas_project]; a [Date] is a day number, a [UUID] its text. *)
Record project_row := {
  context : string;
  collab : string;
  owner : string;
  title : string;
  abstract : string;
  description : string;
  duration : option Z;
  start_date : option Z;
  accepted : option bool;
  submission_date : option Z;
  decision_date : option Z }.

(** [quotas_quota] *)
Record quota_row := {
  q_id : Z;
  q_units : string;
  q_limit : float;
  q_usage : float;
  q_platform : string;
  q_project_id : string }.

Record store := {
  data_items : list data_item;
  job_input_data : list job_link;
  job_output_data : list job_link;
  jobs : list job_row;
  logs : list log_row;
  projects : list project_row;
  quotas : list quota_row;
  quotas_id_seq : Z                       (* next value of the serial key *) }.

Definition set_projects (st : store) (ps : list project_row) : store :=
  {| data_items := data_items st; job_input_data := job_input_data st;
     job_output_data := job_output_data st; jobs := jobs st; logs := logs st;
     projects := ps; quotas := quotas st; quotas_id_seq := quotas_id_seq st |}.

Definition set_quotas (st : store) (qs : list quota_row) : store :=
  {| data_items := data_items st; job_input_data := job_input_data st;
     job_output_data := job_output_data st; jobs := jobs st; logs := logs st;
     projects := projects st; quotas := qs; quotas_id_seq := quotas_id_seq st |}.

Section Table.
Context {R : Type}.

(** [where] with a list of clauses: their conjunction *)
Definition holds (filters : list (R → bool)) (r : R) : bool :=
  forallb (λ f, f r) filters.

Definition select_where (filters : list (R → bool)) (rows : list R) : list R :=
  List.filter (holds filters) rows.

Definition offset_limit (from_index size : nat) (rows : list R) : list R :=
  take size (drop from_index rows).

Definition fetch_one (rows : list R) : option R := head rows.

Definition delete_where (filters : list (R → bool)) (rows : list R) : list R :=
  List.filter (λ r, negb (holds filters r)) rows.

Definition update_where (filters : list (R → bool)) (values : R → R)
    (rows : list R) : list R :=
  (λ r, if holds filters r then values r else r) <$> rows.
End Table.

(** [dict(row)] *)
Definition opt_val {A} (f : A → pyval) (o : option A) : pyval :=
  match o with
  | Some a => f a
  | None => PNone
  end.

Definition dict_of_data_item (d : data_item) : pydict :=
  <["id" := PInt (di_id d)]> (<["url" := opt_val PStr (di_url d)]> ∅).

Definition dict_of_job (j : job_row) : pydict :=
  list_to_map
    [ ("id", PInt (job_id j));
      ("code", PStr (job_code j));
      ("command", PStr (job_command j));
      ("collab_id", PStr (job_collab_id j));
      ("user_id", PStr (job_user_id j));
      ("status", PStr (job_status j));
      ("hardware_platform", PStr (job_hardware_platform j));
      ("hardware_config", opt_val PStr (job_hardware_config j));
      ("timestamp_submission", PDateTime (job_timestamp_submission j));
      ("timestamp_completion", opt_val PDateTime (job_timestamp_completion j));
      ("provenance", opt_val PStr (job_provenance j));
      ("resource_usage", opt_val PFloat (job_resource_usage j)) ]%string.

Definition dict_of_log (l : log_row) : pydict :=
  list_to_map
    [ ("job_id", PInt (log_job_id l)); ("content", PStr (log_content l)) ]%string.

Definition dict_of_project (p : project_row) : pydict :=
  list_to_map
    [ ("context", PStr (context p));
      ("collab", PStr (collab p));
      ("owner", PStr (owner p));
      ("title", PStr (title p));
      ("abstract", PStr (abstract p));
      ("description", PStr (description p));
      ("duration", opt_val PInt (duration p));
      ("start_date", opt_val PDate (start_date p));
      ("accepted", opt_val PBool (accepted p));
      ("submission_date", opt_val PDate (submission_date p));
      ("decision_date", opt_val PDate (decision_date p)) ]%string.

Definition dict_of_quota (q : quota_row) : pydict :=
  list_to_map
    [ ("id", PInt (q_id q));
      ("units", PStr (q_units q));
      ("limit", PFloat (q_limit q));
      ("usage", PFloat (q_usage q));
      ("platform", PStr (q_platform q));
      ("project_id", PStr (q_project_id q)) ]%string.

(** [dict(result)] on what [fetch_one] gave: [dict(None)] is a [TypeError]. *)
Definition dict_of {R} (f : R → pydict) (row : option R) : result pydict :=
  match row with
  | Some r => Ok (f r)
  | None => Raise TypeError
  end.

(** Modelled from the spec: the enumeration [ProjectStatus] of
    [simqueue/data_models.py], which is not among the sources; its four
    members are the four derived statuses, as [query_projects] tests them. *)
Module ProjectStatus.
Inductive t : Type :=
| in_prep
| accepted
| under_review
| rejected.
End ProjectStatus.

(** The keys [post_project] reads from the request. *)
Record project_submission := {
  ps_id : string;
  ps_collab : string;
  ps_owner : string;
  ps_title : string;
  ps_abstract : string;
  ps_description : string;
  ps_submitted : bool;
  ps_accepted : option bool }.

(** The keys [put_project] reads from the request. *)
Record project_update := {
  pu_collab : string;
  pu_owner : string;
  pu_title : string;
  pu_abstract : string;
  pu_description : string;
  pu_duration : option Z;
  pu_start_date : option Z;
  pu_accepted : option bool;
  pu_submission_date : option Z;
  pu_decision_date : option Z }.

(** The attributes [post_quotas] reads, and the keys [put_quotas] reads. *)
Record quota_submission := {
  qs_limit : float;
  qs_platform : string;
  qs_units : string }.

Record quota_update := {
  qu_limit : float;
  qu_usage : float }.

(** [if arg:] on an argument declared [List[str] = None], and the list
    then handed on. *)
Definition list_given (arg : option (list string)) : bool :=
  truthy (py_of_list arg).

Definition list_value (arg : option (list string)) : list string :=
  default [] arg.

Section Db.
(** [json.loads] on a string: [None] when the text is not JSON. *)
Variable json_loads : string → option pyval.
(** [simqueue.globals.RESOURCE_USAGE_UNITS], platform to unit label. *)
Variable RESOURCE_USAGE_UNITS : gmap string string.
(** The text of one field sent to the server as the WHERE clause: the rows
    it keeps, or the error of the server (the name of a column of the job
    table is no condition). *)
Variable where_text : string → result (job_row → bool).
(** A [date] bound to a [DateTime] column is sent as the start of that day
    where the process runs: the instant, in seconds since the epoch, at
    which day [d] starts there. *)
Variable midnight : Z → Z.

Definition json_loads_py (v : pyval) : result pyval :=
  match v with
  | PStr s =>
      match json_loads s with
      | Some j => Ok j
      | None => Raise JSONDecodeError
      end
  | _ => Raise TypeError
  end.

(** A column read with [json.loads] holds nothing, the empty string, or
    text that is JSON. *)
Definition json_column_ok (column : option string) : bool :=
  match column with
  | Some s => negb (truthy (PStr s)) || bool_decide (is_Some (json_loads s))
  | None => true
  end.

(** [RESOURCE_USAGE_UNITS.get(platform, "hours")]; a list or a dict is
    not hashable. *)
Definition units_get (platform : pyval) : result pyval :=
  match platform with
  | PStr s => Ok (PStr (default "hours"%string (RESOURCE_USAGE_UNITS !! s)))
  | PList _ | PDict _ => Raise TypeError
  | _ => Ok (PStr "hours")
  end.

Definition transform_fields (job : pydict) : result pydict :=
  job ← (if truthy (dict_get job "hardware_config" PNone)
         then raw ← dict_item job "hardware_config";
              v ← json_loads_py raw;
              Ok (<["hardware_config" := v]> job)
         else Ok job);
  job ← (if truthy (dict_get job "provenance" PNone)
         then raw ← dict_item job "provenance";
              v ← json_loads_py raw;
              Ok (<["provenance" := v]> job)
         else Ok job);
  if is_not_none (dict_get job "resource_usage" PNone)
  then value ← dict_item job "resource_usage";
       platform ← dict_item job "hardware_platform";
       units ← units_get platform;
       Ok (<["resource_usage" :=
               PDict (<["value" := value]> (<["units" := units]> ∅))]> job)
  else Ok job.

Definition transform_project_fields (project : pydict) : result pydict :=
  v ← dict_item project "context";
  Ok (<["id" := v]> (delete "context" project)).

(** The data items joined to a job through one of the two join tables. *)
Definition related (st : store) (links : list job_link) (jid : pyval)
    : list pyval :=
  d ← data_items st;
  l ← links;
  if bool_decide (di_id d = link_dataitem_id l) && int_col_eq (link_job_id l) jid
  then [PDict (dict_of_data_item d)] else [].

Definition follow_relationships (st : store) (job : pydict) : result pydict :=
  jid ← dict_item job "id";
  let job := <["input_data" := PList (related st (job_input_data st) jid)]> job in
  jid ← dict_item job "id";
  let job := <["output_data" := PList (related st (job_output_data st) jid)]> job in
  Ok job.

Definition get_list_filter {R} (attr : R → string) (value : list string)
    : result (R → bool) :=
  if bool_decide (0 < length value)%nat
  then Ok (λ r, bool_decide (attr r ∈ value))
  else v0 ← list_item value 0;
       Ok (λ r, bool_decide (attr r = v0)).

(** The [filters] list that [query_jobs] builds. *)
Definition job_filters (status user_id hardware_platform collab_id
    : option (list string)) (date_range_start date_range_end : option Z)
    : result (list (job_row → bool)) :=
  let filters := [] in
  let filters :=
    if list_given status
    then filters ++ [λ j, str_col_eq (job_status j) (py_of_list status)]
    else filters in
  filters ← (if list_given user_id
             then f ← get_list_filter job_user_id (list_value user_id);
                  Ok (filters ++ [f])
             else Ok filters);
  filters ← (if list_given hardware_platform
             then f ← get_list_filter job_hardware_platform
                        (list_value hardware_platform);
                  Ok (filters ++ [f])
             else Ok filters);
  filters ← (if list_given collab_id
             then f ← get_list_filter job_collab_id (list_value collab_id);
                  Ok (filters ++ [f])
             else Ok filters);
  Ok match date_range_start, date_range_end with
     | Some s, Some e =>
         filters ++ [λ j, bool_decide (midnight s ≤ job_timestamp_submission j)
                          && bool_decide (job_timestamp_submission j ≤ midnight e)]
     | Some s, None =>
         filters ++ [λ j, bool_decide (midnight s ≤ job_timestamp_submission j)]
     | None, Some e =>
         filters ++ [λ j, bool_decide (job_timestamp_submission j ≤ midnight e)]
     | None, None => filters
     end.

(** [jobs.select] applied to the [literal_column] of each field:
    [Table.select] has one positional parameter, the WHERE clause.  No
    field gives the plain select of all columns, one field is sent as the
    WHERE clause, two or more are a [TypeError] before a statement exists. *)
Definition select_fields (fields : option (list string))
    : result (list (job_row → bool)) :=
  match fields with
  | None | Some [] => Ok []
  | Some [field] => clause ← where_text field; Ok [clause]
  | Some (_ :: _ :: _) => Raise TypeError
  end.

(** The status clause binds the list given to the [String] column
    [status]: the driver refuses it when the statement runs. *)
Definition query_jobs (st : store)
    (status user_id hardware_platform collab_id : option (list string))
    (date_range_start date_range_end : option Z)
    (fields : option (list string)) (from_index size : nat)
    : result (list pydict) :=
  filters ← job_filters status user_id hardware_platform collab_id
              date_range_start date_range_end;
  select ← select_fields fields;
  _ ← (if list_given status then bind (str_param_ok (py_of_list status)) else Ok ());
  let rows :=
    match filters with
    | _ :: _ => offset_limit from_index size (select_where (select ++ filters) (jobs st))
    | [] => offset_limit from_index size (select_where select (jobs st))
    end in
  mapM (λ row, job ← follow_relationships st (dict_of_job row); transform_fields job)
       rows.

Definition get_job (st : store) (job_id' : pyval) : result pyval :=
  let row := fetch_one (select_where [λ j, int_col_eq (job_id j) job_id'] (jobs st)) in
  job ← dict_of dict_of_job row;
  job ← follow_relationships st job;
  job ← transform_fields job;
  Ok (PDict job).

Definition get_log (st : store) (job_id' : pyval) : result pyval :=
  let row := fetch_one (select_where [λ l, int_col_eq (log_job_id l) job_id'] (logs st)) in
  log ← dict_of dict_of_log row;
  Ok (PDict log).

(** The clauses [query_projects] adds for a status. *)
Definition status_filters (status : ProjectStatus.t)
    : list (project_row → bool) :=
  match status with
  | ProjectStatus.accepted => [λ p, bool_decide (accepted p = Some true)]
  | ProjectStatus.rejected =>
      [λ p, bool_decide (accepted p = Some false)]
        ++ [λ p, bool_decide (decision_date p ≠ None)]
  | ProjectStatus.under_review =>
      [λ p, bool_decide (accepted p = Some false)]
        ++ [(λ p, bool_decide (submission_date p ≠ None));
            (λ p, bool_decide (decision_date p = None))]
  | ProjectStatus.in_prep =>
      [λ p, bool_decide (accepted p = Some false)]
        ++ [λ p, bool_decide (submission_date p = None)]
  end.

(** The [filters] list that [query_projects] builds. *)
Definition project_filters (status : option ProjectStatus.t)
    (collab_id owner_id : option (list string))
    : result (list (project_row → bool)) :=
  let filters := [] in
  let filters :=
    match status with
    | Some status => filters ++ status_filters status
    | None => filters
    end in
  filters ← (if list_given collab_id
             then f ← get_list_filter collab (list_value collab_id);
                  Ok (filters ++ [f])
             else Ok filters);
  filters ← (if list_given owner_id
             then f ← get_list_filter owner (list_value owner_id);
                  Ok (filters ++ [f])
             else Ok filters);
  Ok filters.

Definition query_projects (st : store) (status : option ProjectStatus.t)
    (collab_id owner_id : option (list string)) (from_index size : nat)
    : result (list pydict) :=
  filters ← project_filters status collab_id owner_id;
  let rows :=
    match filters with
    | _ :: _ => offset_limit from_index size (select_where filters (projects st))
    | [] => offset_limit from_index size (projects st)
    end in
  mapM (λ row, transform_project_fields (dict_of_project row)) rows.

(** A project with this identifier is stored. *)
Definition project_stored (st : store) (project_id : string) : bool :=
  existsb (λ p, bool_decide (context p = project_id)) (projects st).

(** A quota refers to this project row. *)
Definition owns_quota (st : store) (p : project_row) : bool :=
  existsb (λ q, bool_decide (q_project_id q = context p)) (quotas st).

(** The functions that write have no [return]: they give back [None],
    with the store they leave.  [today] is [date.today()].  [context] is
    the primary key: an identifier already stored is refused. *)
Definition post_project (st : store) (today : Z) (project : project_submission)
    : result pyval * store :=
  let submission_date := if ps_submitted project then Some today else None in
  let ins :=
    {| context := ps_id project; collab := ps_collab project;
       owner := ps_owner project; title := ps_title project;
       abstract := ps_abstract project; description := ps_description project;
       duration := Some 0; start_date := None;
       accepted := ps_accepted project;
       submission_date := submission_date; decision_date := None |} in
  if project_stored st (ps_id project)
  then (Raise UniqueViolationError, st)
  else (Ok PNone, set_projects st (projects st ++ [ins])).

Definition put_project (st : store) (project_id : pyval)
    (project_update : project_update) : pyval * store :=
  let values (p : project_row) :=
    {| context := context p; collab := pu_collab project_update;
       owner := pu_owner project_update; title := pu_title project_update;
       abstract := pu_abstract project_update;
       description := pu_description project_update;
       duration := pu_duration project_update;
       start_date := pu_start_date project_update;
       accepted := pu_accepted project_update;
       submission_date := pu_submission_date project_update;
       decision_date := pu_decision_date project_update |} in
  (PNone,
   set_projects st
     (update_where [λ p, str_col_eq (context p) project_id] values (projects st))).

Definition get_project (st : store) (project_id : pyval) : result pyval :=
  let row :=
    fetch_one (select_where [λ p, str_col_eq (context p) project_id] (projects st)) in
  match row with
  | Some row =>
      project ← transform_project_fields (dict_of_project row);
      Ok (PDict project)
  | None => Ok PNone
  end.

(** [quotas_quota.project_id] refers to [quotas_project.context] with no
    [ON DELETE] action: the delete of a project row that a quota refers to
    is refused, and no row is deleted. *)
Definition delete_project (st : store) (project_id : pyval)
    : result pyval * store :=
  let referred :=
    select_where [λ p, str_col_eq (context p) project_id] (projects st) in
  if existsb (owns_quota st) referred
  then (Raise ForeignKeyViolationError, st)
  else (Ok PNone,
        set_projects st
          (delete_where [λ p, str_col_eq (context p) project_id] (projects st))).

Definition query_quotas (st : store) (project_id : pyval) (from_index size : nat)
    : list pydict :=
  let query := quotas st in
  let query :=
    if truthy project_id
    then offset_limit from_index size
           (select_where [λ q, str_col_eq (q_project_id q) project_id] (quotas st))
    else query in
  dict_of_quota <$> query.

Definition get_quota (st : store) (quota_id project_id : pyval) : pyval :=
  let results :=
    fetch_one
      (select_where [(λ q, int_col_eq (q_id q) quota_id);
                     (λ q, str_col_eq (q_project_id q) project_id)] (quotas st)) in
  match results with
  | Some row => PDict (dict_of_quota row)
  | None => PNone
  end.

Definition query_deleteonequota (st : store) (quota_id project_id : pyval)
    : pyval * store :=
  (PNone,
   set_quotas st
     (delete_where [(λ q, int_col_eq (q_id q) quota_id);
                    (λ q, str_col_eq (q_project_id q) project_id)] (quotas st))).

(** The loop calls [query_deleteonequota(project_id, result.id)]: the
    project identifier goes to the parameter [quota_id], the row's key to
    the parameter [project_id]. *)
Definition delete_quotas_from_project (st : store) (project_id : pyval)
    : pyval * store :=
  let results :=
    select_where [λ q, str_col_eq (q_project_id q) project_id] (quotas st) in
  (PNone,
   foldl (λ st row, (query_deleteonequota st project_id (PInt (q_id row))).2)
         st results).

(** The key of the new row is the next value of the table's sequence;
    [usage = 0] in a [Float] column is [0.0].  The row must refer to a
    stored project: otherwise the insert is refused, and the value drawn
    from the sequence is spent. *)
Definition post_quotas (st : store) (project_id : string) (quota : quota_submission)
    : result pyval * store :=
  let ins :=
    {| q_id := quotas_id_seq st; q_units := qs_units quota;
       q_limit := qs_limit quota; q_usage := 0%float;
       q_platform := qs_platform quota; q_project_id := project_id |} in
  let insert (rows : list quota_row) :=
    {| data_items := data_items st; job_input_data := job_input_data st;
       job_output_data := job_output_data st; jobs := jobs st; logs := logs st;
       projects := projects st; quotas := rows;
       quotas_id_seq := quotas_id_seq st + 1 |} in
  if project_stored st project_id
  then (Ok PNone, insert (quotas st ++ [ins]))
  else (Raise ForeignKeyViolationError, insert (quotas st)).

Definition put_quotas (st : store) (project_id : pyval) (quota : quota_update)
    (quota_id : pyval) : pyval * store :=
  let values (q : quota_row) :=
    {| q_id := q_id q; q_units := q_units q; q_limit := qu_limit quota;
       q_usage := qu_usage quota; q_platform := q_platform q;
       q_project_id := q_project_id q |} in
  (PNone,
   set_quotas st
     (update_where [(λ q, int_col_eq (q_id q) quota_id);
                    (λ q, str_col_eq (q_project_id q) project_id)] values
        (quotas st))).

End Db.

(** [simqueue_comment].  The table is no part of [store]: [get_comments],
    the one function that reads it, takes it as an argument. *)
Record comment_row := {
  c_id : Z;
  c_content : option string;
  c_created_time : Z;
  c_user : string;
  c_job_id : option Z }.

Definition dict_of_comment (c : comment_row) : pydict :=
  list_to_map
    [ ("id", PInt (c_id c));
      ("content", opt_val PStr (c_content c));
      ("created_time", PDateTime (c_created_time c));
      ("user", PStr (c_user c));
      ("job_id", opt_val PInt (c_job_id c)) ]%string.

(** A nullable integer column compared with a parameter: [column == None]
    is rendered [IS NULL]. *)
Definition opt_int_col_eq (c : option Z) (v : pyval) : bool :=
  match v, c with
  | PInt z, Some c => bool_decide (c = z)
  | PNone, None => true
  | _, _ => false
  end.

Definition get_comments (comments : list comment_row) (job_id' : pyval)
    : list pydict :=
  dict_of_comment <$> select_where [λ c, opt_int_col_eq (c_job_id c) job_id'] comments.

(** ** simqueue.oauth: the permissions of a user on a collab

    A [User] is built from the answer of the identity service; of its
    attributes the team checks below read [roles["team"]], the names of the
    teams of the user.  What [can_view] does when the user is in no team of
    the collab, asking the collab service and reading [isPublic] from its
    answer, is input and output: its outcome is an argument. *)
Module OAuth.

Record User := {
  roles_team : list string }.

Inductive outcome (A : Type) : Type :=
| Return (a : A)
| HTTPException (status_code : Z) (detail : string).

Arguments Return {A} a.
Arguments HTTPException {A} status_code detail.

(** [f"collab-{collab_id}-{role}"] *)
Definition team_name (collab_id role : string) : string :=
  "collab-" +:+ collab_id +:+ "-" +:+ role.

(** The loop over the team names returns [True] at the first team the
    user is in. *)
Definition in_a_team (self : User) (collab_id : string) (roles : list string) : bool :=
  existsb (λ role, bool_decide (team_name collab_id role ∈ roles_team self)) roles.

Definition can_view (public : outcome pyval) (self : User) (collab_id : string)
    : outcome pyval :=
  if in_a_team self collab_id ["viewer"; "editor"; "administrator"]%string
  then Return (PBool true)
  else public.

(** No [return] after the loop: the answer is [True] or [None]. *)
Definition can_edit (self : User) (collab_id : string) : pyval :=
  if in_a_team self collab_id ["editor"; "administrator"]%string
  then PBool true
  else PNone.

End OAuth.

(** Every stored job has JSON columns that [json.loads] reads. *)
Definition jobs_json_ok (json_loads : string → option pyval) (st : store) : bool :=
  forallb (λ j, json_column_ok json_loads (job_hardware_config j)
                && json_column_ok json_loads (job_provenance j)) (jobs st).

(** The keys in the quota table were drawn from its sequence: each is below
    the next value. *)
Definition quota_keys_below_seq (st : store) : bool :=
  forallb (λ q, bool_decide (q_id q < quotas_id_seq st)) (quotas st).

(** ** Sample data for the closed statements *)


(** Two project identifiers, as the [UUID] columns write them. *)
Definition sample_uuid : string := "b52ebde9-4c3a-4f0e-9d2b-7a1c5e8f0a36".
Definition sample_uuid2 : string := "0c7f2a11-8d5e-4f6a-9b3c-2d1e0f9a8b7c".

Definition sample_project : project_row :=
  {| context := sample_uuid; collab := "c-1"; owner := "alice"; title := "t";
     abstract := "a"; description := "d"; duration := Some 0; start_date := None;
     accepted := Some false; submission_date := Some 19754;
     decision_date := Some 19760 |}.

Definition sample_quota : quota_row :=
  {| q_id := 1; q_units := "core-hours"; q_limit := 100%float;
     q_usage := 0%float; q_platform := "SpiNNaker"; q_project_id := sample_uuid |}.

(** One project that owns one quota. *)
Definition sample_store : store :=
  {| data_items := []; job_input_data := []; job_output_data := []; jobs := [];
     logs := []; projects := [sample_project]; quotas := [sample_quota];
     quotas_id_seq := 2 |}.


Definition sample_json_loads (s : string) : option pyval :=
  if bool_decide (s = "{}"%string) then Some (PDict ∅) else None.

Definition sample_units : gmap string string :=
  <["SpiNNaker" := "core-hours"]> ∅.

Definition sample_job : job_row :=
  {| job_id := 7; job_code := "run()"; job_command := ""; job_collab_id := "c-1";
     job_user_id := "alice"; job_status := "finished";
     job_hardware_platform := "SpiNNaker"; job_hardware_config := Some "{}";
     job_timestamp_submission := 1706745600; job_timestamp_completion := None;
     job_provenance := None; job_resource_usage := Some 0%float |}%string.

(** A store that holds [sample_job] and its one input file. *)
Definition sample_job_store : store :=
  {| data_items := [ {| di_id := 3; di_url := Some "https://example.org/in.dat" |} ];
     job_input_data := [ {| link_job_id := 7; link_dataitem_id := 3 |} ];
     job_output_data := [];
     jobs := [sample_job]; logs := []; projects := []; quotas := [];
     quotas_id_seq := 1 |}%string.

(** A process that runs in UTC. *)
Definition sample_midnight (d : Z) : Z := d * 86400.

(** What the server makes of a text sent as the WHERE clause: [true] keeps
    every row, the name of a column is no condition, another text names
    nothing. *)
Definition sample_where_text (field : string) : result (job_row → bool) :=
  if bool_decide (field = "true"%string) then Ok (λ _, true)
  else if bool_decide (field ∈ ["id"; "code"; "command"; "collab_id"; "user_id";
                                "status"; "hardware_platform"; "hardware_config";
                                "timestamp_submission"; "timestamp_completion";
                                "provenance"; "resource_usage"]%string)
       then Raise DatatypeMismatchError
       else Raise UndefinedColumnError.

(** An update that leaves the [accepted] flag null. *)
Definition sample_null_update : project_update :=
  {| pu_collab := "c-1"; pu_owner := "alice"; pu_title := "t"; pu_abstract := "a";
     pu_description := "d"; pu_duration := Some 0; pu_start_date := None;
     pu_accepted := None; pu_submission_date := Some 19754;
     pu_decision_date := None |}.

(** Two projects, the second of which owns a quota, and one log. *)
Definition sample_uuid_quota : quota_row :=
  {| q_id := 1; q_units := "core-hours"; q_limit := 100%float;
     q_usage := 0%float; q_platform := "SpiNNaker"; q_project_id := sample_uuid2 |}.

Definition sample_uuid_store : store :=
  {| data_items := []; job_input_data := []; job_output_data := []; jobs := [];
     logs := [ {| log_job_id := 7; log_content := "started" |} ];
     projects :=
       [ {| context := sample_uuid; collab := "c-1"; owner := "alice"; title := "t";
            abstract := "a"; description := "d"; duration := Some 0;
            start_date := None; accepted := Some false; submission_date := None;
            decision_date := None |};
         {| context := sample_uuid2; collab := "c-2"; owner := "bob"; title := "u";
            abstract := "b"; description := "e"; duration := Some 0;
            start_date := None; accepted := Some false; submission_date := None;
            decision_date := None |} ];
     quotas := [sample_uuid_quota]; quotas_id_seq := 2 |}.


Definition sample_comments : list comment_row :=
  [ {| c_id := 1; c_content := Some "queued"; c_created_time := 1706745600;
       c_user := "alice"; c_job_id := Some 7 |};
    {| c_id := 2; c_content := None; c_created_time := 1706745700;
       c_user := "bob"; c_job_id := None |};
    {| c_id := 3; c_content := Some "done"; c_created_time := 1706745800;
       c_user := "alice"; c_job_id := Some 7 |} ]%string.

(** A job whose stored configuration is not JSON, and a store that holds it
    after [sample_job]. *)
Definition sample_bad_job : job_row :=
  {| job_id := 8; job_code := "run()"; job_command := ""; job_collab_id := "c-1";
     job_user_id := "bob"; job_status := "error";
     job_hardware_platform := "SpiNNaker"; job_hardware_config := Some "{'n': 1";
     job_timestamp_submission := 1706832000; job_timestamp_completion := None;
     job_provenance := None; job_resource_usage := None |}%string.

Definition sample_bad_store : store :=
  {| data_items := []; job_input_data := []; job_output_data := [];
     jobs := [sample_job; sample_bad_job]; logs := []; projects := []; quotas := [];
     quotas_id_seq := 1 |}.

(** ** Properties *)

Section TableFacts.
Context {R : Type}.

Lemma filter_all (f : R → bool) (rows : list R) :
  (∀ r, r ∈ rows → f r = true) → List.filter f rows = rows.
Proof.
  induction rows as [|r rows IH]; intros Hall; simpl; [done|].
  rewrite (Hall r) by left. f_equal. apply IH. intros r' Hr'.
  apply Hall. by right.
Qed.

Lemma filter_none (f : R → bool) (rows : list R) :
  (∀ r, r ∈ rows → f r = false) → List.filter f rows = [].
Proof.
  induction rows as [|r rows IH]; intros Hall; simpl; [done|].
  rewrite (Hall r) by left. apply IH. intros r' Hr'. apply Hall. by right.
Qed.

Lemma offset_limit_nil (i n : nat) : offset_limit i n (@nil R) = [].
Proof. unfold offset_limit. by rewrite drop_nil, take_nil. Qed.
End TableFacts.

Lemma set_quotas_same (st : store) : set_quotas st (quotas st) = st.
Proof. by destruct st. Qed.

(** *** Project status *)

(** C3: for a project whose [accepted] flag is the boolean [a] and whose
    decision date, when set, comes with a submission date, exactly one of
    the four statuses has all its [query_projects] clauses hold. *)
Theorem status_filters_exactly_one (p : project_row) (a : bool) :
  accepted p = Some a →
  (decision_date p ≠ None → submission_date p ≠ None) →
  ∃ status, holds (status_filters status) p = true
            ∧ ∀ status', holds (status_filters status') p = true → status' = status.
Proof.
  destruct p as [? ? ? ? ? ? ? ? acc sub dec]; simpl. intros -> Hinv.
  destruct a.
  - exists ProjectStatus.accepted. split; [done|].
    by intros []; cbn; try done; destruct sub, dec.
  - destruct dec as [d|]; [destruct sub as [s|]; [|by destruct Hinv]|].
    + exists ProjectStatus.rejected. split; [done|]. by intros [].
    + destruct sub as [s|].
      * exists ProjectStatus.under_review. split; [done|]. by intros [].
      * exists ProjectStatus.in_prep. split; [done|]. by intros [].
Qed.

Lemma status_filters_exactly_one_witness :
  accepted sample_project = Some false
  ∧ (decision_date sample_project ≠ None → submission_date sample_project ≠ None)
  ∧ ∃ status, holds (status_filters status) sample_project = true
      ∧ ∀ status', holds (status_filters status') sample_project = true
                   → status' = status.
Proof.
  split; [reflexivity|]. split; [intros _; discriminate|].
  apply (status_filters_exactly_one sample_project false);
    [reflexivity | intros _; discriminate].
Defined.

(** C3, as stated, fails: [put_project] with a null [accepted] leaves in
    [sample_store] a project that has a submission date and no decision
    date, and that passes the clauses of no status. *)
Lemma status_filters_null_accepted :
  ¬ (∀ st p,
       p ∈ projects st →
       (decision_date p ≠ None → submission_date p ≠ None) →
       ∃ status, holds (status_filters status) p = true
                 ∧ ∀ status', holds (status_filters status') p = true
                              → status' = status).
Proof.
  intros H.
  destruct (H (put_project sample_store (PStr sample_uuid) sample_null_update).2
              {| context := sample_uuid; collab := "c-1"; owner := "alice";
                 title := "t"; abstract := "a"; description := "d";
                 duration := Some 0; start_date := None; accepted := None;
                 submission_date := Some 19754; decision_date := None |})
    as (status & Hstatus & _).
  - by left.
  - done.
  - by destruct status.
Qed.

(** *** Deleting a project and its quotas *)

Lemma project_stored_elem (st : store) (project_id : string) :
  project_stored st project_id = true
  ↔ ∃ p, p ∈ projects st ∧ context p = project_id.
Proof.
  unfold project_stored. rewrite existsb_exists. split.
  - intros (p & Hp & Heq). exists p. rewrite list_elem_of_In.
    by apply bool_decide_eq_true in Heq.
  - intros (p & Hp & Heq). exists p. rewrite <- list_elem_of_In.
    by rewrite bool_decide_eq_true.
Qed.

(** The delete is refused exactly when the project is stored and a quota
    refers to it. *)
Lemma delete_project_refused (st : store) (project_id : string) :
  existsb (owns_quota st)
    (select_where [λ p, str_col_eq (context p) (PStr project_id)] (projects st)) = true
  ↔ project_stored st project_id = true
    ∧ ∃ q, q ∈ quotas st ∧ q_project_id q = project_id.
Proof.
  rewrite project_stored_elem, existsb_exists. unfold owns_quota, select_where. split.
  - intros (p & [Hp Hid]%filter_In & (q & Hq & Hown)%existsb_exists).
    simpl in Hid. rewrite andb_true_r in Hid.
    apply bool_decide_eq_true in Hid, Hown. subst project_id.
    split; [exists p | exists q]; by rewrite list_elem_of_In.
  - intros [(p & Hp & <-) (q & Hq & Hown)]. exists p. split.
    + apply filter_In. split; [by apply list_elem_of_In|].
      simpl. by rewrite bool_decide_eq_true_2.
    + apply existsb_exists. exists q. split; [by apply list_elem_of_In|].
      by apply bool_decide_eq_true.
Qed.



(** [query_deleteonequota] itself removes the quota it is asked for. *)
Lemma query_deleteonequota_removes (st : store) (quota_id : Z) (project_id : string) :
  ∀ q, q ∈ quotas (query_deleteonequota st (PInt quota_id) (PStr project_id)).2
       → ¬ (q_id q = quota_id ∧ q_project_id q = project_id).
Proof.
  intros q. simpl. unfold delete_where.
  rewrite list_elem_of_In, filter_In. simpl. intros [_ Hq] [<- <-].
  by rewrite !bool_decide_eq_true_2 in Hq.
Qed.

(** With its arguments exchanged it removes nothing: a row key is no
    project identifier. *)
Lemma query_deleteonequota_exchanged (st : store) (project_id : pyval) (key : Z) :
  (query_deleteonequota st project_id (PInt key)).2 = st.
Proof.
  unfold query_deleteonequota. simpl. unfold delete_where.
  rewrite filter_all; [apply set_quotas_same|].
  intros q _. simpl. by rewrite andb_false_r.
Qed.

Lemma delete_quotas_from_project_store (st : store) (project_id : pyval) :
  (delete_quotas_from_project st project_id).2 = st.
Proof.
  unfold delete_quotas_from_project. cbn [snd].
  generalize (select_where [λ q, str_col_eq (q_project_id q) project_id] (quotas st)).
  intros results. induction results as [|row results IH]; cbn [foldl]; [done|].
  by rewrite query_deleteonequota_exchanged.
Qed.

(** C2 at [sample_store]: after [delete_quotas_from_project] for the project
    that owns [sample_quota], the quota is still in the table and
    [query_quotas] for the project still returns it. *)
Theorem delete_quotas_from_project_keeps_quota :
  let st' := (delete_quotas_from_project sample_store (PStr sample_uuid)).2 in
  quotas st' = [sample_quota]
  ∧ query_quotas st' (PStr sample_uuid) 0 10 = [dict_of_quota sample_quota].
Proof. by rewrite delete_quotas_from_project_store. Qed.


(** *** Lookups of one item *)

Section Lookups.
Variable json_loads : string → option pyval.
Variable RESOURCE_USAGE_UNITS : gmap string string.

Lemma get_job_absent (st : store) (job_id' : pyval) :
  (∀ j, j ∈ jobs st → int_col_eq (job_id j) job_id' = false) →
  get_job json_loads RESOURCE_USAGE_UNITS st job_id' = Raise TypeError.
Proof.
  intros Habs. unfold get_job, select_where.
  rewrite filter_none; [done|]. intros j Hj. simpl. by rewrite Habs.
Qed.

Lemma get_log_absent (st : store) (job_id' : pyval) :
  (∀ l, l ∈ logs st → int_col_eq (log_job_id l) job_id' = false) →
  get_log st job_id' = Raise TypeError.
Proof.
  intros Habs. unfold get_log, select_where.
  rewrite filter_none; [done|]. intros l Hl. simpl. by rewrite Habs.
Qed.

Lemma get_project_absent (st : store) (project_id : pyval) :
  (∀ p, p ∈ projects st → str_col_eq (context p) project_id = false) →
  get_project st project_id = Ok PNone.
Proof.
  intros Habs. unfold get_project, select_where.
  rewrite filter_none; [done|]. intros p Hp. simpl. by rewrite Habs.
Qed.

Lemma get_quota_absent (st : store) (quota_id project_id : pyval) :
  (∀ q, q ∈ quotas st →
        int_col_eq (q_id q) quota_id && str_col_eq (q_project_id q) project_id = false) →
  get_quota st quota_id project_id = PNone.
Proof.
  intros Habs. unfold get_quota, select_where.
  rewrite filter_none; [done|]. intros q Hq. simpl.
  by rewrite andb_true_r, Habs.
Qed.

(** C5 at [sample_store], which holds no job and no log: [get_job] and
    [get_log] for the identifier 7 raise [TypeError], where [get_project]
    and [get_quota] for an identifier that is not stored return [None]. *)
Theorem get_job_get_log_absent_raise :
  get_job json_loads RESOURCE_USAGE_UNITS sample_store (PInt 7) = Raise TypeError
  ∧ get_log sample_store (PInt 7) = Raise TypeError
  ∧ get_project sample_store (PStr sample_uuid2) = Ok PNone
  ∧ get_quota sample_store (PInt 9) (PStr sample_uuid) = PNone.
Proof. repeat split. Qed.

End Lookups.

(** *** The filters of [query_jobs] and [query_projects] *)

Lemma list_given_value (arg : option (list string)) :
  list_given arg = true → list_value arg ≠ [].
Proof. by destruct arg as [[|x l]|]. Qed.

Lemma get_list_filter_in {R} (attr : R → string) (value : list string) :
  value ≠ [] → get_list_filter attr value = Ok (λ r, bool_decide (attr r ∈ value)).
Proof. by destruct value. Qed.

Lemma get_list_filter_raises {R} (attr : R → string) (value : list string) :
  get_list_filter attr value = Raise IndexError ↔ value = [].
Proof. by destruct value. Qed.

(** One [if arg: filters.append(get_list_filter(attr, arg))]. *)
Lemma list_filter_site {R} (attr : R → string) (arg : option (list string))
    (filters : list (R → bool)) :
  (if list_given arg
   then f ← get_list_filter attr (list_value arg); Ok (filters ++ [f])
   else Ok filters)
  = Ok (if list_given arg
        then filters ++ [λ r, bool_decide (attr r ∈ list_value arg)]
        else filters).
Proof.
  destruct (list_given arg) eqn:Hg; [|done].
  by rewrite get_list_filter_in by by apply list_given_value.
Qed.

Lemma job_filters_total (midnight : Z → Z) status user_id hardware_platform
    collab_id date_range_start date_range_end :
  ∃ filters, job_filters midnight status user_id hardware_platform collab_id
               date_range_start date_range_end = Ok filters.
Proof.
  unfold job_filters. rewrite list_filter_site. cbn [mbind result_bind].
  rewrite list_filter_site. cbn [mbind result_bind].
  rewrite list_filter_site. cbn [mbind result_bind]. eauto.
Qed.

Lemma project_filters_total status collab_id owner_id :
  ∃ filters, project_filters status collab_id owner_id = Ok filters.
Proof.
  unfold project_filters. rewrite list_filter_site. cbn [mbind result_bind].
  rewrite list_filter_site. cbn [mbind result_bind]. eauto.
Qed.

(** With a status list given, the first clause is the comparison of the
    status column with the list. *)
Lemma job_filters_status (midnight : Z → Z) (status : list string) user_id
    hardware_platform collab_id date_range_start date_range_end :
  status ≠ [] →
  ∃ rest, job_filters midnight (Some status) user_id hardware_platform collab_id
            date_range_start date_range_end
          = Ok ((λ j, str_col_eq (job_status j) (PList (PStr <$> status))) :: rest).
Proof.
  intros Hne. unfold job_filters.
  replace (list_given (Some status)) with true by by destruct status.
  rewrite list_filter_site. cbn [mbind result_bind].
  rewrite list_filter_site. cbn [mbind result_bind].
  rewrite list_filter_site. cbn [mbind result_bind].
  destruct (list_given user_id), (list_given hardware_platform),
    (list_given collab_id), date_range_start, date_range_end;
    cbn [app py_of_list]; eauto.
Qed.

Section Queries.
Variable json_loads : string → option pyval.
Variable RESOURCE_USAGE_UNITS : gmap string string.
Variable where_text : string → result (job_row → bool).
Variable midnight : Z → Z.


(** C10: an empty list for [user_id], [hardware_platform], [collab_id] or
    [owner_id] gives the query of the absent argument; at each call site the
    list handed to [get_list_filter] is not empty; [get_list_filter] raises
    (its [value[0]]) on the empty list only; and building the filters of
    either query never raises. *)
Theorem empty_list_filter_is_absent :
  (∀ st status hardware_platform collab_id date_range_start date_range_end
     fields from_index size,
     query_jobs json_loads RESOURCE_USAGE_UNITS where_text midnight st status
       (Some []) hardware_platform collab_id date_range_start date_range_end
       fields from_index size
     = query_jobs json_loads RESOURCE_USAGE_UNITS where_text midnight st status
         None hardware_platform collab_id date_range_start date_range_end
         fields from_index size)
  ∧ (∀ st status user_id collab_id date_range_start date_range_end
       fields from_index size,
       query_jobs json_loads RESOURCE_USAGE_UNITS where_text midnight st status
         user_id (Some []) collab_id date_range_start date_range_end
         fields from_index size
       = query_jobs json_loads RESOURCE_USAGE_UNITS where_text midnight st status
           user_id None collab_id date_range_start date_range_end
           fields from_index size)
  ∧ (∀ st status user_id hardware_platform date_range_start date_range_end
       fields from_index size,
       query_jobs json_loads RESOURCE_USAGE_UNITS where_text midnight st status
         user_id hardware_platform (Some []) date_range_start date_range_end
         fields from_index size
       = query_jobs json_loads RESOURCE_USAGE_UNITS where_text midnight st status
           user_id hardware_platform None date_range_start date_range_end
           fields from_index size)
  ∧ (∀ st status owner_id from_index size,
       query_projects st status (Some []) owner_id from_index size
       = query_projects st status None owner_id from_index size)
  ∧ (∀ st status collab_id from_index size,
       query_projects st status collab_id (Some []) from_index size
       = query_projects st status collab_id None from_index size)
  ∧ (∀ arg, list_given arg = true → list_value arg ≠ [])
  ∧ (∀ (attr : job_row → string) value,
       get_list_filter attr value = Raise IndexError ↔ value = [])
  ∧ (∀ (attr : project_row → string) value,
       get_list_filter attr value = Raise IndexError ↔ value = [])
  ∧ (∀ status user_id hardware_platform collab_id date_range_start date_range_end,
       ∃ filters, job_filters midnight status user_id hardware_platform collab_id
                    date_range_start date_range_end = Ok filters)
  ∧ (∀ status collab_id owner_id,
       ∃ filters, project_filters status collab_id owner_id = Ok filters).
Proof.
  split_and!; try done.
  - apply list_given_value.
  - intros. apply get_list_filter_raises.
  - intros. apply get_list_filter_raises.
  - apply job_filters_total.
  - apply project_filters_total.
Qed.

End Queries.


(** *** The field transform *)

Section Transform.
Variable json_loads : string → option pyval.
Variable RESOURCE_USAGE_UNITS : gmap string string.

(** The two JSON columns are read first; reading one leaves the other keys. *)
Lemma loads_column_ok (job : pydict) (k : string) (column : option string) :
  job !! k = Some (opt_val PStr column) →
  json_column_ok json_loads column = true →
  ∃ job',
    (if truthy (dict_get job k PNone)
     then raw ← dict_item job k;
          v ← json_loads_py json_loads raw;
          Ok (<[k := v]> job)
     else Ok job) = Ok job'
    ∧ ∀ k', k' ≠ k → job' !! k' = job !! k'.
Proof.
  intros Hk Hok. unfold dict_get, dict_item. rewrite Hk. simpl.
  destruct column as [s|]; simpl; [|by eauto].
  simpl in Hok. destruct (bool_decide (s = ""%string)); simpl in *; [by eauto|].
  apply bool_decide_eq_true in Hok as [v Hv]. rewrite Hv. simpl.
  eexists. split; [done|]. intros k' Hk'. by rewrite lookup_insert_ne.
Qed.

(** C6: on the record of a stored job whose JSON columns are well formed,
    [transform_fields] returns, and [resource_usage] is then the dictionary
    of the stored value, [0.0] included, with the unit registered for the
    job's platform or ["hours"] when none is; a null [resource_usage] stays
    null. *)
Theorem transform_fields_resource_usage (j : job_row) :
  json_column_ok json_loads (job_hardware_config j) = true →
  json_column_ok json_loads (job_provenance j) = true →
  ∃ job',
    transform_fields json_loads RESOURCE_USAGE_UNITS (dict_of_job j) = Ok job'
    ∧ job' !! "resource_usage"%string
      = Some match job_resource_usage j with
             | Some value =>
                 PDict (<["value"%string := PFloat value]>
                          (<["units"%string :=
                               PStr (default "hours"%string
                                       (RESOURCE_USAGE_UNITS !! job_hardware_platform j))]> ∅))
             | None => PNone
             end.
Proof.
  intros Hhc Hprov. unfold transform_fields.
  destruct (loads_column_ok (dict_of_job j) "hardware_config" _ eq_refl Hhc)
    as (job1 & -> & Hjob1).
  cbn [mbind result_bind].
  destruct (loads_column_ok job1 "provenance" (job_provenance j)) as (job2 & -> & Hjob2);
    [by rewrite Hjob1 | done |].
  cbn [mbind result_bind].
  assert (∀ k, k ≠ "hardware_config"%string → k ≠ "provenance"%string →
               job2 !! k = dict_of_job j !! k) as Hjob.
  { intros k ? ?. by rewrite Hjob2, Hjob1. }
  unfold dict_get, dict_item. rewrite !Hjob by done.
  change (dict_of_job j !! "resource_usage"%string)
    with (Some (opt_val PFloat (job_resource_usage j))).
  change (dict_of_job j !! "hardware_platform"%string)
    with (Some (PStr (job_hardware_platform j))).
  destruct (job_resource_usage j) as [value|] eqn:Husage; simpl.
  - eexists. split; [done|]. by rewrite lookup_insert_eq.
  - eexists. split; [done|]. rewrite Hjob by done.
    change (dict_of_job j !! "resource_usage"%string)
      with (Some (opt_val PFloat (job_resource_usage j))).
    by rewrite Husage.
Qed.

End Transform.

Lemma transform_fields_resource_usage_witness :
  json_column_ok sample_json_loads (job_hardware_config sample_job) = true
  ∧ json_column_ok sample_json_loads (job_provenance sample_job) = true
  ∧ ∃ job',
      transform_fields sample_json_loads sample_units (dict_of_job sample_job) = Ok job'
      ∧ job' !! "resource_usage"%string
        = Some (PDict (<["value"%string := PFloat 0%float]>
                         (<["units"%string := PStr "core-hours"]> ∅))).
Proof.
  split; [reflexivity|]. split; [reflexivity|].
  apply (transform_fields_resource_usage sample_json_loads sample_units sample_job);
    reflexivity.
Defined.

(** *** Creating a project *)




(** A request with an identifier that is stored is refused: nothing is
    stored. *)
Lemma post_project_duplicate (st : store) (today : Z) (project : project_submission) :
  project_stored st (ps_id project) = true →
  post_project st today project = (Raise UniqueViolationError, st).
Proof. intros Hstored. unfold post_project. by rewrite Hstored. Qed.

(** *** Quotas *)

Lemma filter_fmap {A} (f : A → bool) (g : A → A) (l : list A) :
  (∀ a, f (g a) = f a) → List.filter f (g <$> l) = g <$> List.filter f l.
Proof.
  intros Hfg. induction l as [|a l IH]; csimpl; [done|].
  rewrite Hfg. destruct (f a); csimpl; by rewrite IH.
Qed.




(** [put_quotas] rewrites the limit and the usage of a row, nothing else. *)
Lemma put_quotas_rows (st : store) (project_id : pyval) (quota : quota_update)
    (quota_id : pyval) :
  Forall2 (λ old new,
             q_id new = q_id old ∧ q_platform new = q_platform old
             ∧ q_units new = q_units old ∧ q_project_id new = q_project_id old)
          (quotas st) (quotas (put_quotas st project_id quota quota_id).2).
Proof.
  cbn [put_quotas snd set_quotas quotas]. unfold update_where.
  apply Forall2_fmap_r, Forall_Forall2_diag, Forall_forall. intros q _.
  unfold compose. by destruct (holds _ q).
Qed.

Lemma put_quotas_get_quota (st : store) (project_id quota_id : pyval)
    (quota : quota_update) (record : pydict) :
  get_quota st quota_id project_id = PDict record →
  get_quota (put_quotas st project_id quota quota_id).2 quota_id project_id
  = PDict (<["limit"%string := PFloat (qu_limit quota)]>
             (<["usage"%string := PFloat (qu_usage quota)]> record)).
Proof.
  unfold get_quota, put_quotas, select_where, update_where.
  cbn [snd set_quotas quotas]. rewrite filter_fmap.
  - set (found := List.filter _ (quotas st)).
    assert (∀ q, q ∈ found →
                 holds [(λ q, int_col_eq (q_id q) quota_id);
                        (λ q, str_col_eq (q_project_id q) project_id)] q = true)
      as Hholds.
    { intros q Hq. subst found. by apply list_elem_of_In, filter_In in Hq as [_ Hq]. }
    destruct found as [|row found]; [done|]. cbn [fmap list_fmap fetch_one head].
    rewrite Hholds by left. intros [= <-]. f_equal.
  - intros q. by destruct (holds _ q) eqn:Hq.
Qed.

(** C9: when [get_quota] finds the quota, [put_quotas] followed by the same
    [get_quota] returns the record found before with its limit and usage
    replaced by the supplied ones; every row of the table keeps its key,
    platform, units and project reference. *)
Theorem put_quotas_replaces_limit_usage (st : store) (project_id quota_id : pyval)
    (quota : quota_update) (record : pydict) :
  get_quota st quota_id project_id = PDict record →
  get_quota (put_quotas st project_id quota quota_id).2 quota_id project_id
  = PDict (<["limit"%string := PFloat (qu_limit quota)]>
             (<["usage"%string := PFloat (qu_usage quota)]> record))
  ∧ Forall2 (λ old new,
               q_id new = q_id old ∧ q_platform new = q_platform old
               ∧ q_units new = q_units old ∧ q_project_id new = q_project_id old)
            (quotas st) (quotas (put_quotas st project_id quota quota_id).2).
Proof.
  intros Hfound. split; [by apply put_quotas_get_quota | apply put_quotas_rows].
Qed.


Lemma put_quotas_replaces_limit_usage_witness :
  get_quota sample_store (PInt 1) (PStr sample_uuid) = PDict (dict_of_quota sample_quota)
  ∧ get_quota
      (put_quotas sample_store (PStr sample_uuid)
         {| qu_limit := 100%float; qu_usage := 40%float |} (PInt 1)).2
      (PInt 1) (PStr sample_uuid)
    = PDict (<["limit"%string := PFloat 100%float]>
               (<["usage"%string := PFloat 40%float]> (dict_of_quota sample_quota))).
Proof.
  split; [reflexivity|].
  apply (put_quotas_replaces_limit_usage sample_store (PStr sample_uuid) (PInt 1)
           {| qu_limit := 100%float; qu_usage := 40%float |}
           (dict_of_quota sample_quota)).
  reflexivity.
Defined.

(** *** The model on sample data *)

(** A platform filter that [sample_job] passes: the job comes back with its
    configuration parsed, its usage wrapped and its data lists filled in. *)
Example query_jobs_sample :
  match query_jobs sample_json_loads sample_units sample_where_text sample_midnight
          sample_job_store None None (Some ["SpiNNaker"]%string) None
          (Some 19754) None None 0 10 with
  | Ok [job] =>
      job !! "id"%string = Some (PInt 7)
      ∧ job !! "hardware_config"%string = Some (PDict ∅)
      ∧ job !! "resource_usage"%string
        = Some (PDict (<["value"%string := PFloat 0%float]>
                         (<["units"%string := PStr "core-hours"]> ∅)))
      ∧ job !! "input_data"%string
        = Some (PList [PDict (<["id"%string := PInt 3]>
                                (<["url"%string := PStr "https://example.org/in.dat"]> ∅))])
      ∧ job !! "output_data"%string = Some (PList [])
  | _ => False
  end.
Proof. vm_compute. by split_and!. Qed.

Example query_jobs_sample_other_platform :
  query_jobs sample_json_loads sample_units sample_where_text sample_midnight sample_job_store
    None None (Some ["BrainScaleS"; "Spikey"]%string) None None None None 0 10 = Ok [].
Proof. reflexivity. Qed.

Example get_job_sample :
  match get_job sample_json_loads sample_units sample_job_store (PInt 7) with
  | Ok (PDict job) => job !! "status"%string = Some (PStr "finished")
  | _ => False
  end.
Proof. vm_compute. done. Qed.

Example get_project_sample :
  match get_project sample_store (PStr sample_uuid) with
  | Ok (PDict project) =>
      project !! "id"%string = Some (PStr sample_uuid)
      ∧ project !! "context"%string = None
  | _ => False
  end.
Proof. vm_compute. done. Qed.

Example query_projects_sample :
  match query_projects sample_store (Some ProjectStatus.rejected)
          (Some ["c-1"]%string) None 0 10 with
  | Ok [project] => project !! "id"%string = Some (PStr sample_uuid)
  | _ => False
  end
  ∧ query_projects sample_store (Some ProjectStatus.under_review) None None 0 10 = Ok [].
Proof. split; [vm_compute; done | reflexivity]. Qed.

(** The name of a column alone is no WHERE clause, and two fields are one
    argument too many for [select]. *)
Example query_jobs_fields_sample :
  query_jobs sample_json_loads sample_units sample_where_text sample_midnight
    sample_job_store None None None None None None (Some ["id"]%string) 0 10
  = Raise DatatypeMismatchError
  ∧ query_jobs sample_json_loads sample_units sample_where_text sample_midnight
      sample_job_store None None None None None None
      (Some ["id"; "status"]%string) 0 10
    = Raise TypeError.
Proof. split; reflexivity. Qed.

(** A second project with the identifier of [sample_project] is refused,
    and so is a quota for a project that is not stored. *)
Example constraints_sample :
  (post_project sample_store 19754
     {| ps_id := sample_uuid; ps_collab := "c-1"; ps_owner := "alice";
        ps_title := "t"; ps_abstract := "a"; ps_description := "d";
        ps_submitted := false; ps_accepted := Some false |}).1
  = Raise UniqueViolationError
  ∧ (post_quotas sample_store sample_uuid2
       {| qs_limit := 50%float; qs_platform := "BrainScaleS";
          qs_units := "wafer-hours" |}).1
    = Raise ForeignKeyViolationError
  ∧ delete_project sample_store (PStr sample_uuid)
    = (Raise ForeignKeyViolationError, sample_store).
Proof. split_and!; reflexivity. Qed.

(** With the arguments in the declared order the quota is deleted. *)
Example query_deleteonequota_sample :
  quotas (query_deleteonequota sample_store (PInt 1) (PStr sample_uuid)).2 = [].
Proof. reflexivity. Qed.

(** ** Further properties of the module *)

Section MoreTableFacts.
Context {R : Type}.

Lemma elem_of_select_where (filters : list (R → bool)) (rows : list R) (r : R) :
  r ∈ select_where filters rows ↔ r ∈ rows ∧ holds filters r = true.
Proof. unfold select_where. by rewrite !list_elem_of_In, filter_In. Qed.

Lemma select_where_nil (rows : list R) : select_where [] rows = rows.
Proof. by apply filter_all. Qed.

Lemma elem_of_offset_limit (i n : nat) (rows : list R) (r : R) :
  r ∈ offset_limit i n rows → r ∈ rows.
Proof. unfold offset_limit. by intros Hr%subseteq_take%subseteq_drop. Qed.

Lemma length_offset_limit (i n : nat) (rows : list R) :
  (length (offset_limit i n rows) ≤ n)%nat.
Proof. unfold offset_limit. rewrite length_take. lia. Qed.

Lemma offset_limit_pages (i n m : nat) (rows : list R) :
  offset_limit i n rows ++ offset_limit (i + n) m rows = offset_limit i (n + m) rows.
Proof. unfold offset_limit. by rewrite <- drop_drop, take_take_drop. Qed.


Lemma head_filter_holds (f : R → bool) (rows : list R) (r : R) :
  head (List.filter f rows) = Some r → r ∈ rows ∧ f r = true.
Proof.
  intros Hhead. rewrite list_elem_of_In. apply filter_In.
  destruct (List.filter f rows) as [|r' found]; [done|].
  injection Hhead as ->. by left.
Qed.

Lemma head_filter_none (f : R → bool) (rows : list R) :
  head (List.filter f rows) = None ↔ ∀ r, r ∈ rows → f r = false.
Proof.
  split.
  - intros Hhead r Hr. destruct (f r) eqn:Hf; [|done].
    assert (r ∈ List.filter f rows) as Hin.
    { apply list_elem_of_In, filter_In. by rewrite <- list_elem_of_In. }
    destruct (List.filter f rows); [by apply not_elem_of_nil in Hin | done].
  - intros Hnone. by rewrite filter_none.
Qed.

Lemma filter_filter_comm (f g : R → bool) (rows : list R) :
  List.filter f (List.filter g rows) = List.filter g (List.filter f rows).
Proof.
  induction rows as [|r rows IH]; simpl; [done|].
  destruct (f r) eqn:Hf, (g r) eqn:Hg; simpl; rewrite ?Hf, ?Hg, IH; done.
Qed.
End MoreTableFacts.

Lemma mapM_result_ok {A B} (f : A → result B) (P : A → B → Prop) (l : list A) :
  Forall (λ x, ∃ y, f x = Ok y ∧ P x y) l →
  ∃ k, mapM f l = Ok k ∧ Forall2 P l k.
Proof.
  induction 1 as [|x l (y & Hy & HP) _ (k & Hk & IH)]; [by exists []|].
  exists (y :: k). cbn. rewrite Hy. cbn. fold (mapM f l). rewrite Hk.
  split; [done|]. by constructor.
Qed.

Lemma mapM_result_raise {A B} (f : A → result B) (e : exn) (l : list A) :
  Forall (λ x, (∃ y, f x = Ok y) ∨ f x = Raise e) l →
  Exists (λ x, f x = Raise e) l →
  mapM f l = Raise e.
Proof.
  induction 1 as [|x l Hx _ IH]; intros Hex; [by apply Exists_nil in Hex|].
  cbn. fold (mapM f l). destruct Hx as [[y Hy]|Hx].
  - rewrite Hy. cbn. apply Exists_cons in Hex as [Hex|Hex]; [congruence|].
    by rewrite IH.
  - by rewrite Hx.
Qed.

(** *** Hydrating a job: the join tables *)

Lemma elem_of_related (st : store) (links : list job_link) (jid : Z) (v : pyval) :
  v ∈ related st links (PInt jid)
  ↔ ∃ d l, d ∈ data_items st ∧ l ∈ links ∧ link_job_id l = jid
           ∧ link_dataitem_id l = di_id d ∧ v = PDict (dict_of_data_item d).
Proof.
  unfold related. rewrite list_elem_of_bind. split.
  - intros (d & Hv & Hd). apply list_elem_of_bind in Hv as (l & Hv & Hl).
    destruct (bool_decide (di_id d = link_dataitem_id l)) eqn:Hdl; simpl in Hv;
      [|by apply not_elem_of_nil in Hv].
    destruct (bool_decide (link_job_id l = jid)) eqn:Hlj;
      [|by apply not_elem_of_nil in Hv].
    apply list_elem_of_singleton in Hv as ->.
    apply bool_decide_eq_true in Hdl, Hlj. by exists d, l.
  - intros (d & l & Hd & Hl & Hlj & Hdl & ->). exists d. split; [|done].
    apply list_elem_of_bind. exists l. split; [|done].
    simpl. rewrite !bool_decide_eq_true_2 by done. by left.
Qed.

(** X1: for a record that carries an integer [id], [follow_relationships]
    returns the record with [input_data] and [output_data] set; the first
    lists the data items that [job_input_data] links to that job, the second
    those that [job_output_data] links to it, and no other data item. *)
Theorem follow_relationships_links (st : store) (job : pydict) (jid : Z) :
  job !! "id"%string = Some (PInt jid) →
  ∃ ins outs,
    follow_relationships st job
    = Ok (<["output_data"%string := PList outs]>
            (<["input_data"%string := PList ins]> job))
    ∧ (∀ v, v ∈ ins
            ↔ ∃ d l, d ∈ data_items st ∧ l ∈ job_input_data st
                     ∧ link_job_id l = jid ∧ link_dataitem_id l = di_id d
                     ∧ v = PDict (dict_of_data_item d))
    ∧ (∀ v, v ∈ outs
            ↔ ∃ d l, d ∈ data_items st ∧ l ∈ job_output_data st
                     ∧ link_job_id l = jid ∧ link_dataitem_id l = di_id d
                     ∧ v = PDict (dict_of_data_item d)).
Proof.
  intros Hid. exists (related st (job_input_data st) (PInt jid)),
    (related st (job_output_data st) (PInt jid)).
  split; [|split; intros v; apply elem_of_related].
  unfold follow_relationships, dict_item. rewrite Hid. cbn [mbind result_bind].
  by rewrite lookup_insert_ne, Hid.
Qed.

Lemma follow_relationships_links_witness :
  dict_of_job sample_job !! "id"%string = Some (PInt 7)
  ∧ ∃ ins outs,
      follow_relationships sample_job_store (dict_of_job sample_job)
      = Ok (<["output_data"%string := PList outs]>
              (<["input_data"%string := PList ins]> (dict_of_job sample_job)))
      ∧ (∀ v, v ∈ ins
              ↔ ∃ d l, d ∈ data_items sample_job_store
                       ∧ l ∈ job_input_data sample_job_store
                       ∧ link_job_id l = 7 ∧ link_dataitem_id l = di_id d
                       ∧ v = PDict (dict_of_data_item d))
      ∧ (∀ v, v ∈ outs
              ↔ ∃ d l, d ∈ data_items sample_job_store
                       ∧ l ∈ job_output_data sample_job_store
                       ∧ link_job_id l = 7 ∧ link_dataitem_id l = di_id d
                       ∧ v = PDict (dict_of_data_item d)).
Proof.
  split; [reflexivity|].
  apply (follow_relationships_links sample_job_store (dict_of_job sample_job) 7).
  reflexivity.
Defined.

(** *** The field transform on any record *)

Section TransformMore.
Variable json_loads : string → option pyval.
Variable RESOURCE_USAGE_UNITS : gmap string string.

Lemma loads_step_keys (job job1 : pydict) (k : string) :
  (if truthy (dict_get job k PNone)
   then raw ← dict_item job k;
        v ← json_loads_py json_loads raw;
        Ok (<[k := v]> job)
   else Ok job) = Ok job1 →
  dom job1 = dom job ∧ ∀ k', k' ≠ k → job1 !! k' = job !! k'.
Proof.
  unfold dict_get, dict_item. destruct (job !! k) as [raw|] eqn:Hk; simpl.
  - destruct (truthy raw); [|by intros [= <-]].
    destruct (json_loads_py json_loads raw) as [v|]; simpl; [|done].
    intros [= <-]. split; [by apply dom_insert_lookup_L|].
    intros k' Hk'. by rewrite lookup_insert_ne.
  - by intros [= <-].
Qed.

Lemma loads_column_bad (job : pydict) (k : string) (column : option string) :
  job !! k = Some (opt_val PStr column) →
  json_column_ok json_loads column = false →
  (if truthy (dict_get job k PNone)
   then raw ← dict_item job k;
        v ← json_loads_py json_loads raw;
        Ok (<[k := v]> job)
   else Ok job) = Raise JSONDecodeError.
Proof.
  intros Hk Hbad. unfold dict_get, dict_item. rewrite Hk. simpl.
  destruct column as [s|]; [|done]. simpl in *.
  destruct (bool_decide (s = ""%string)); [done|]. simpl in *.
  apply bool_decide_eq_false in Hbad.
  destruct (json_loads s) as [v|] eqn:Hs; [by destruct Hbad|done].
Qed.

Lemma transform_fields_keys (job job' : pydict) :
  transform_fields json_loads RESOURCE_USAGE_UNITS job = Ok job' →
  dom job' = dom job
  ∧ ∀ k, k ≠ "hardware_config"%string → k ≠ "provenance"%string →
         k ≠ "resource_usage"%string → job' !! k = job !! k.
Proof.
  unfold transform_fields.
  destruct (if truthy (dict_get job "hardware_config" PNone) then _ else _)
    as [job1|] eqn:H1; [|done].
  cbn [mbind result_bind].
  destruct (if truthy (dict_get job1 "provenance" PNone) then _ else _)
    as [job2|] eqn:H2; [|done].
  cbn [mbind result_bind].
  apply loads_step_keys in H1 as [Hd1 Hk1], H2 as [Hd2 Hk2].
  unfold dict_get, dict_item.
  destruct (job2 !! "resource_usage"%string) as [value|] eqn:Hru; simpl.
  - destruct (is_not_none value).
    + destruct (job2 !! "hardware_platform"%string) as [platform|]; [|done]. simpl.
      destruct (units_get RESOURCE_USAGE_UNITS platform) as [units|]; [|done]. simpl.
      intros [= <-]. split.
      * rewrite dom_insert_lookup_L by done. congruence.
      * intros k ? ? ?. by rewrite lookup_insert_ne, Hk2, Hk1.
    + intros [= <-]. split; [congruence|]. intros k ? ? ?. by rewrite Hk2, Hk1.
  - intros [= <-]. split; [congruence|]. intros k ? ? ?. by rewrite Hk2, Hk1.
Qed.

(** On a record that holds the four columns the transform reads as the
    table stores them. *)
Lemma transform_fields_columns (job : pydict) (hc prov : option string)
    (ru : option float) (platform : string) :
  job !! "hardware_config"%string = Some (opt_val PStr hc) →
  job !! "provenance"%string = Some (opt_val PStr prov) →
  job !! "resource_usage"%string = Some (opt_val PFloat ru) →
  job !! "hardware_platform"%string = Some (PStr platform) →
  if json_column_ok json_loads hc && json_column_ok json_loads prov
  then ∃ job', transform_fields json_loads RESOURCE_USAGE_UNITS job = Ok job'
  else transform_fields json_loads RESOURCE_USAGE_UNITS job = Raise JSONDecodeError.
Proof.
  intros Hhc Hprov Hru Hplatform. unfold transform_fields.
  destruct (json_column_ok json_loads hc) eqn:Hok1; simpl.
  - destruct (loads_column_ok json_loads job "hardware_config" hc Hhc Hok1)
      as (job1 & -> & Hjob1).
    cbn [mbind result_bind].
    destruct (json_column_ok json_loads prov) eqn:Hok2.
    + destruct (loads_column_ok json_loads job1 "provenance" prov) as (job2 & -> & Hjob2);
        [by rewrite Hjob1 | done |].
      cbn [mbind result_bind]. unfold dict_get, dict_item.
      rewrite !Hjob2, !Hjob1, Hru, Hplatform by done. simpl.
      destruct ru; simpl; eauto.
    + rewrite (loads_column_bad job1 "provenance" prov); [done| |done].
      by rewrite Hjob1.
  - by rewrite (loads_column_bad job "hardware_config" hc).
Qed.

(** X2: when [transform_fields] returns, the record has the keys it had,
    and every key but [hardware_config], [provenance] and [resource_usage]
    has the value it had. *)
Theorem transform_fields_keeps_keys (job job' : pydict) :
  transform_fields json_loads RESOURCE_USAGE_UNITS job = Ok job' →
  dom job' = dom job
  ∧ ∀ k, k ≠ "hardware_config"%string → k ≠ "provenance"%string →
         k ≠ "resource_usage"%string → job' !! k = job !! k.
Proof. apply transform_fields_keys. Qed.

(** X3: on the record of a stored job, [transform_fields] raises exactly
    when [hardware_config] or [provenance] holds a non-empty text that
    [json.loads] rejects, and the exception is then [JSONDecodeError]; a
    null or empty column never makes it raise. *)
Theorem transform_fields_stored_raises (j : job_row) (e : exn) :
  transform_fields json_loads RESOURCE_USAGE_UNITS (dict_of_job j) = Raise e
  ↔ e = JSONDecodeError
    ∧ (json_column_ok json_loads (job_hardware_config j) = false
       ∨ json_column_ok json_loads (job_provenance j) = false).
Proof.
  pose proof (transform_fields_columns (dict_of_job j) (job_hardware_config j)
                (job_provenance j) (job_resource_usage j) (job_hardware_platform j)
                eq_refl eq_refl eq_refl eq_refl) as Hcols.
  destruct (json_column_ok json_loads (job_hardware_config j)),
    (json_column_ok json_loads (job_provenance j)); simpl in Hcols.
  - destruct Hcols as [job' ->]. split; [done|]. by intros [_ [|]].
  - rewrite Hcols. split; [intros [= <-]; eauto | by intros [-> _]].
  - rewrite Hcols. split; [intros [= <-]; eauto | by intros [-> _]].
  - rewrite Hcols. split; [intros [= <-]; eauto | by intros [-> _]].
Qed.

(** X4: a record that has a [resource_usage] but no [hardware_platform]
    key, as a column list can produce, makes [transform_fields] raise
    [KeyError] once its JSON columns are read. *)
Theorem transform_fields_without_platform (job : pydict) (value : pyval) :
  truthy (dict_get job "hardware_config" PNone) = false →
  truthy (dict_get job "provenance" PNone) = false →
  job !! "resource_usage"%string = Some value →
  value ≠ PNone →
  job !! "hardware_platform"%string = None →
  transform_fields json_loads RESOURCE_USAGE_UNITS job
  = Raise (KeyError "hardware_platform").
Proof.
  intros Hhc Hprov Hru Hvalue Hplatform. unfold transform_fields.
  rewrite Hhc. cbn [mbind result_bind]. rewrite Hprov. cbn [mbind result_bind].
  unfold dict_get, dict_item. rewrite Hru, Hplatform. simpl.
  by destruct value.
Qed.

End TransformMore.

Lemma transform_fields_keeps_keys_witness :
  ∃ job',
    transform_fields sample_json_loads sample_units (dict_of_job sample_job) = Ok job'
    ∧ dom job' = dom (dict_of_job sample_job)
    ∧ job' !! "status"%string = Some (PStr "finished").
Proof.
  pose proof (transform_fields_columns sample_json_loads sample_units
                (dict_of_job sample_job) (Some "{}"%string) None (Some 0%float)
                "SpiNNaker" eq_refl eq_refl eq_refl eq_refl) as Hjob.
  cbn in Hjob. destruct Hjob as [job' Hjob]. exists job'. split; [exact Hjob|].
  destruct (transform_fields_keeps_keys sample_json_loads sample_units
              (dict_of_job sample_job) job' Hjob) as [Hdom Hkeys].
  split; [exact Hdom|]. by rewrite Hkeys.
Defined.

Lemma transform_fields_without_platform_witness :
  transform_fields sample_json_loads sample_units
    (<["id"%string := PInt 7]> (<["resource_usage"%string := PFloat 1%float]> ∅))
  = Raise (KeyError "hardware_platform").
Proof.
  apply (transform_fields_without_platform sample_json_loads sample_units _
           (PFloat 1%float)); done.
Defined.

(** *** Looking jobs up and querying them *)

Lemma holds_app {R} (fs gs : list (R → bool)) (r : R) :
  holds (fs ++ gs) r = holds fs r && holds gs r.
Proof. apply forallb_app. Qed.

Lemma holds_site {R} (c : bool) (fs : list (R → bool)) (f : R → bool) (r : R) :
  holds (if c then fs ++ [f] else fs) r = true →
  holds fs r = true ∧ (c = true → f r = true).
Proof.
  destruct c; [|done]. rewrite holds_app. simpl. rewrite andb_true_r.
  by intros [? ?]%andb_true_iff.
Qed.

Lemma list_given_some (arg : option (list string)) (l : list string) :
  arg = Some l → l ≠ [] → list_given arg = true ∧ list_value arg = l.
Proof. intros -> Hl. by destruct l. Qed.

(** What a job that passes the filters of [query_jobs] satisfies. *)
Lemma job_filters_sound (midnight : Z → Z) status user_id hardware_platform collab_id
    date_range_start date_range_end (filters : list (job_row → bool)) (j : job_row) :
  job_filters midnight status user_id hardware_platform collab_id
    date_range_start date_range_end = Ok filters →
  holds filters j = true →
  (∀ l, user_id = Some l → l ≠ [] → job_user_id j ∈ l)
  ∧ (∀ l, hardware_platform = Some l → l ≠ [] → job_hardware_platform j ∈ l)
  ∧ (∀ l, collab_id = Some l → l ≠ [] → job_collab_id j ∈ l)
  ∧ (∀ d, date_range_start = Some d → midnight d ≤ job_timestamp_submission j)
  ∧ (∀ d, date_range_end = Some d → job_timestamp_submission j ≤ midnight d).
Proof.
  unfold job_filters. rewrite list_filter_site. cbn [mbind result_bind].
  rewrite list_filter_site. cbn [mbind result_bind].
  rewrite list_filter_site. cbn [mbind result_bind].
  intros [= <-] Hholds.
  match type of Hholds with
  | holds (match _ with
           | Some _ => match _ with Some _ => ?fs ++ _ | None => _ end
           | None => _
           end) _ = _ => set (lists := fs) in *
  end.
  assert (holds lists j = true
          ∧ (∀ d, date_range_start = Some d → midnight d ≤ job_timestamp_submission j)
          ∧ (∀ d, date_range_end = Some d → job_timestamp_submission j ≤ midnight d))
    as (Hlists & Hstart & Hend).
  { destruct date_range_start as [s|], date_range_end as [e|];
      rewrite ?holds_app in Hholds; simpl in Hholds;
      rewrite ?andb_true_r in Hholds;
      repeat match goal with
             | H : _ && _ = true |- _ => apply andb_true_iff in H as [? ?]
             | H : bool_decide _ = true |- _ => apply bool_decide_eq_true in H
             end;
      split_and!; try done; by intros ? [= <-]. }
  subst lists.
  apply holds_site in Hlists as [Hlists Hcollab].
  apply holds_site in Hlists as [Hlists Hplatform].
  apply holds_site in Hlists as [_ Huser].
  split_and!; try done.
  - intros l Hl Hne. destruct (list_given_some _ _ Hl Hne) as [Hg <-].
    by apply (bool_decide_eq_true_1 _), Huser.
  - intros l Hl Hne. destruct (list_given_some _ _ Hl Hne) as [Hg <-].
    by apply (bool_decide_eq_true_1 _), Hplatform.
  - intros l Hl Hne. destruct (list_given_some _ _ Hl Hne) as [Hg <-].
    by apply (bool_decide_eq_true_1 _), Hcollab.
Qed.

Section QueriesMore.
Variable json_loads : string → option pyval.
Variable RESOURCE_USAGE_UNITS : gmap string string.
Variable where_text : string → result (job_row → bool).
Variable midnight : Z → Z.

Lemma query_jobs_page (st : store) status user_id hardware_platform collab_id
    date_range_start date_range_end from_index size filters :
  job_filters midnight status user_id hardware_platform collab_id
    date_range_start date_range_end = Ok filters →
  list_given status = false →
  query_jobs json_loads RESOURCE_USAGE_UNITS where_text midnight st status user_id
    hardware_platform collab_id date_range_start date_range_end None from_index size
  = mapM (λ row,
            job ← follow_relationships st (dict_of_job row);
            transform_fields json_loads RESOURCE_USAGE_UNITS job)
         (offset_limit from_index size (select_where filters (jobs st))).
Proof.
  intros Hfilters Hstatus. unfold query_jobs. rewrite Hfilters, Hstatus.
  cbn [mbind result_bind select_fields app].
  destruct filters; [by rewrite select_where_nil | done].
Qed.

(** With a status list given, no row passes the clauses. *)
Lemma job_filters_status_page status user_id hardware_platform collab_id
    date_range_start date_range_end filters (rows : list job_row) :
  job_filters midnight status user_id hardware_platform collab_id
    date_range_start date_range_end = Ok filters →
  list_given status = true →
  select_where filters rows = [].
Proof.
  intros Hfilters Hstatus. destruct status as [[|x l]|]; [done| |done].
  destruct (job_filters_status midnight (x :: l) user_id hardware_platform collab_id
              date_range_start date_range_end) as [rest Hrest]; [done|].
  rewrite Hrest in Hfilters. injection Hfilters as <-.
  by apply filter_none.
Qed.

(** A stored row, joined and transformed. *)
Lemma hydrate_stored (st : store) (j : job_row) :
  if json_column_ok json_loads (job_hardware_config j)
     && json_column_ok json_loads (job_provenance j)
  then ∃ d,
         (job ← follow_relationships st (dict_of_job j);
          transform_fields json_loads RESOURCE_USAGE_UNITS job) = Ok d
         ∧ (∀ k, k ≠ "hardware_config"%string → k ≠ "provenance"%string →
                 k ≠ "resource_usage"%string → k ≠ "input_data"%string →
                 k ≠ "output_data"%string → d !! k = dict_of_job j !! k)
         ∧ is_Some (d !! "input_data"%string)
         ∧ is_Some (d !! "output_data"%string)
  else (job ← follow_relationships st (dict_of_job j);
        transform_fields json_loads RESOURCE_USAGE_UNITS job) = Raise JSONDecodeError.
Proof.
  unfold follow_relationships, dict_item.
  change (dict_of_job j !! "id"%string) with (Some (PInt (job_id j))).
  cbn [mbind result_bind]. rewrite lookup_insert_ne by done.
  change (dict_of_job j !! "id"%string) with (Some (PInt (job_id j))).
  cbn [mbind result_bind].
  set (job := <["output_data"%string := _]> _).
  pose proof (transform_fields_columns json_loads RESOURCE_USAGE_UNITS job
                (job_hardware_config j) (job_provenance j) (job_resource_usage j)
                (job_hardware_platform j)) as Hcols.
  unfold job in Hcols at 1 2 3 4. rewrite !lookup_insert_ne in Hcols by done.
  specialize (Hcols eq_refl eq_refl eq_refl eq_refl).
  destruct (json_column_ok json_loads (job_hardware_config j)
            && json_column_ok json_loads (job_provenance j)); [|done].
  destruct Hcols as [d Hd]. exists d. split; [done|].
  apply transform_fields_keys in Hd as [Hdom Hkeys].
  split_and!.
  - intros k ? ? ? ? ?. rewrite Hkeys by done. unfold job.
    by rewrite !lookup_insert_ne.
  - rewrite Hkeys by done. unfold job. rewrite lookup_insert_ne by done.
    rewrite lookup_insert_eq. eauto.
  - rewrite Hkeys by done. unfold job. rewrite lookup_insert_eq. eauto.
Qed.

Lemma jobs_json_ok_elem (st : store) (j : job_row) :
  jobs_json_ok json_loads st = true → j ∈ jobs st →
  json_column_ok json_loads (job_hardware_config j)
  && json_column_ok json_loads (job_provenance j) = true.
Proof.
  unfold jobs_json_ok. rewrite forallb_forall. intros Hall Hj.
  by apply Hall, list_elem_of_In.
Qed.

(** X5: when the JSON columns of the stored jobs are well formed, [get_job]
    for the identifier of a stored job returns a record; the record carries
    that identifier and the two data lists. *)
Theorem get_job_found (st : store) (j : job_row) :
  jobs_json_ok json_loads st = true →
  j ∈ jobs st →
  ∃ d, get_job json_loads RESOURCE_USAGE_UNITS st (PInt (job_id j)) = Ok (PDict d)
       ∧ d !! "id"%string = Some (PInt (job_id j))
       ∧ is_Some (d !! "input_data"%string)
       ∧ is_Some (d !! "output_data"%string).
Proof.
  intros Hjson Hj. unfold get_job, fetch_one, select_where.
  destruct (head (List.filter _ (jobs st))) as [row|] eqn:Hrow.
  - apply head_filter_holds in Hrow as [Hin Hrow]. simpl in Hrow.
    rewrite andb_true_r in Hrow. apply bool_decide_eq_true in Hrow.
    cbn [dict_of mbind result_bind].
    pose proof (hydrate_stored st row) as Hhyd.
    rewrite (jobs_json_ok_elem st row Hjson Hin) in Hhyd.
    destruct Hhyd as (d & Hd & Hkeys & Hin' & Hout).
    destruct (follow_relationships st (dict_of_job row)) as [job|]; [|done].
    cbn [mbind result_bind] in *. rewrite Hd. cbn [mbind result_bind].
    exists d. split; [done|]. split; [|done].
    rewrite Hkeys by done. by rewrite <- Hrow.
  - pose proof (proj1 (head_filter_none _ _) Hrow j Hj) as Hnone. simpl in Hnone.
    by rewrite bool_decide_eq_true_2 in Hnone.
Qed.

(** X6: for an integer of the range of the key column, [get_job] raises
    [TypeError] exactly when no stored job has it as identifier. *)
Theorem get_job_type_error (st : store) (z : Z) :
  int4 z = true →
  get_job json_loads RESOURCE_USAGE_UNITS st (PInt z) = Raise TypeError
  ↔ ∀ j, j ∈ jobs st → job_id j ≠ z.
Proof.
  intros _. split.
  - unfold get_job, fetch_one, select_where.
    destruct (head (List.filter _ (jobs st))) as [row|] eqn:Hrow.
    + cbn [dict_of mbind result_bind]. pose proof (hydrate_stored st row) as Hhyd.
      destruct (json_column_ok _ _ && json_column_ok _ _).
      * destruct Hhyd as (d & Hd & _).
        destruct (follow_relationships st (dict_of_job row)) as [job|]; [|done].
        cbn [mbind result_bind] in *. by rewrite Hd.
      * destruct (follow_relationships st (dict_of_job row)) as [job|].
        -- cbn [mbind result_bind] in *. by rewrite Hhyd.
        -- cbn [mbind result_bind] in *. by injection Hhyd as ->.
    + intros _ j Hj. pose proof (proj1 (head_filter_none _ _) Hrow j Hj) as Hnone.
      simpl in Hnone. rewrite andb_true_r in Hnone.
      by apply bool_decide_eq_false in Hnone.
  - intros Habs. apply get_job_absent. intros j Hj. simpl.
    apply bool_decide_eq_false. by apply Habs.
Qed.

Lemma Forall2_exists_left {A B} (P : A → B → Prop) (l : list A) (k : list B) :
  Forall2 P l k → Forall (λ y, ∃ x, P x y) k.
Proof. induction 1; constructor; eauto. Qed.

(** X7: when the JSON columns of the stored jobs are well formed,
    [query_jobs] with no status list and no field list returns; it returns
    at most [size] records, and each is the record of a stored job (all
    keys but the three transformed and the two added are as stored) that is
    in every list given for [user_id], [hardware_platform] and [collab_id]
    and was submitted in the range given, a day of the range starting at
    its [midnight]. *)
Theorem query_jobs_returns (st : store) status user_id hardware_platform collab_id
    date_range_start date_range_end (from_index size : nat) :
  jobs_json_ok json_loads st = true →
  list_given status = false →
  ∃ records,
    query_jobs json_loads RESOURCE_USAGE_UNITS where_text midnight st status user_id
      hardware_platform collab_id date_range_start date_range_end None
      from_index size = Ok records
    ∧ (length records ≤ size)%nat
    ∧ Forall (λ d, ∃ j,
                j ∈ jobs st
                ∧ (∀ k, k ≠ "hardware_config"%string → k ≠ "provenance"%string →
                        k ≠ "resource_usage"%string → k ≠ "input_data"%string →
                        k ≠ "output_data"%string → d !! k = dict_of_job j !! k)
                ∧ (∀ l, user_id = Some l → l ≠ [] → job_user_id j ∈ l)
                ∧ (∀ l, hardware_platform = Some l → l ≠ [] →
                        job_hardware_platform j ∈ l)
                ∧ (∀ l, collab_id = Some l → l ≠ [] → job_collab_id j ∈ l)
                ∧ (∀ t, date_range_start = Some t →
                        midnight t ≤ job_timestamp_submission j)
                ∧ (∀ t, date_range_end = Some t →
                        job_timestamp_submission j ≤ midnight t))
             records.
Proof.
  intros Hjson Hstatus.
  destruct (job_filters_total midnight status user_id hardware_platform collab_id
              date_range_start date_range_end) as [filters Hfilters].
  rewrite (query_jobs_page _ _ _ _ _ _ _ _ _ _ Hfilters Hstatus).
  set (rows := offset_limit from_index size (select_where filters (jobs st))).
  destruct (mapM_result_ok
              (λ row, job ← follow_relationships st (dict_of_job row);
                      transform_fields json_loads RESOURCE_USAGE_UNITS job)
              (λ j d, j ∈ jobs st ∧ holds filters j = true
                      ∧ ∀ k, k ≠ "hardware_config"%string → k ≠ "provenance"%string →
                             k ≠ "resource_usage"%string → k ≠ "input_data"%string →
                             k ≠ "output_data"%string → d !! k = dict_of_job j !! k)
              rows) as (records & Hrecords & Hall).
  { apply Forall_forall. intros j Hj.
    apply elem_of_offset_limit, elem_of_select_where in Hj as [Hj Hholds].
    pose proof (hydrate_stored st j) as Hhyd.
    rewrite (jobs_json_ok_elem st j Hjson Hj) in Hhyd.
    destruct Hhyd as (d & Hd & Hkeys & _). eauto. }
  exists records. split; [done|]. split.
  - rewrite <- (Forall2_length _ _ _ Hall). apply length_offset_limit.
  - eapply Forall_impl; [by eapply Forall2_exists_left|].
    intros d (j & Hj & Hholds & Hkeys). exists j.
    destruct (job_filters_sound _ _ _ _ _ _ _ _ j Hfilters Hholds)
      as (? & ? & ? & ? & ?).
    by split_and!.
Qed.

(** X8: a job with a JSON column that [json.loads] rejects, once it is on
    the page selected, makes the whole [query_jobs] call raise
    [JSONDecodeError]: no record of the page is returned. *)
Theorem query_jobs_bad_row (st : store) status user_id hardware_platform collab_id
    date_range_start date_range_end (from_index size : nat) filters (j : job_row) :
  job_filters midnight status user_id hardware_platform collab_id
    date_range_start date_range_end = Ok filters →
  j ∈ offset_limit from_index size (select_where filters (jobs st)) →
  json_column_ok json_loads (job_hardware_config j)
  && json_column_ok json_loads (job_provenance j) = false →
  query_jobs json_loads RESOURCE_USAGE_UNITS where_text midnight st status user_id
    hardware_platform collab_id date_range_start date_range_end None
    from_index size = Raise JSONDecodeError.
Proof.
  intros Hfilters Hj Hbad. destruct (list_given status) eqn:Hstatus.
  { rewrite (job_filters_status_page _ _ _ _ _ _ _ _ Hfilters Hstatus) in Hj.
    rewrite offset_limit_nil in Hj. by apply not_elem_of_nil in Hj. }
  rewrite (query_jobs_page _ _ _ _ _ _ _ _ _ _ Hfilters Hstatus).
  apply mapM_result_raise.
  - apply Forall_forall. intros row _. pose proof (hydrate_stored st row) as Hhyd.
    destruct (json_column_ok json_loads (job_hardware_config row)
              && json_column_ok json_loads (job_provenance row)); [|by right].
    destruct Hhyd as (d & Hd & _). eauto.
  - apply Exists_exists. exists j. split; [done|].
    pose proof (hydrate_stored st j) as Hhyd. by rewrite Hbad in Hhyd.
Qed.

(** X9: two or more fields make [query_jobs] raise [TypeError], whatever
    the store and the filters; an empty field list gives the query of no
    field list; and one field that the server refuses as a WHERE clause
    makes the call raise what the server raises. *)
Theorem query_jobs_fields (st : store) status user_id hardware_platform collab_id
    date_range_start date_range_end (from_index size : nat) :
  (∀ field1 field2 fields,
     query_jobs json_loads RESOURCE_USAGE_UNITS where_text midnight st status user_id
       hardware_platform collab_id date_range_start date_range_end
       (Some (field1 :: field2 :: fields)) from_index size = Raise TypeError)
  ∧ query_jobs json_loads RESOURCE_USAGE_UNITS where_text midnight st status user_id
      hardware_platform collab_id date_range_start date_range_end
      (Some []) from_index size
    = query_jobs json_loads RESOURCE_USAGE_UNITS where_text midnight st status user_id
        hardware_platform collab_id date_range_start date_range_end
        None from_index size
  ∧ (∀ field e,
       where_text field = Raise e →
       query_jobs json_loads RESOURCE_USAGE_UNITS where_text midnight st status user_id
         hardware_platform collab_id date_range_start date_range_end
         (Some [field]) from_index size = Raise e).
Proof.
  destruct (job_filters_total midnight status user_id hardware_platform collab_id
              date_range_start date_range_end) as [filters Hfilters].
  unfold query_jobs. rewrite Hfilters. cbn [mbind result_bind select_fields].
  split_and!; [done | done |]. intros field e ->. done.
Qed.

End QueriesMore.

Lemma get_job_found_witness :
  jobs_json_ok sample_json_loads sample_job_store = true
  ∧ sample_job ∈ jobs sample_job_store
  ∧ ∃ d, get_job sample_json_loads sample_units sample_job_store (PInt 7) = Ok (PDict d)
         ∧ d !! "id"%string = Some (PInt 7).
Proof.
  split; [reflexivity|]. split; [by left|].
  destruct (get_job_found sample_json_loads sample_units sample_job_store sample_job)
    as (d & Hd & Hid & _); [reflexivity | by left |].
  by exists d.
Defined.

Lemma get_job_type_error_witness :
  int4 8 = true
  ∧ (get_job sample_json_loads sample_units sample_job_store (PInt 8) = Raise TypeError
     ↔ ∀ j, j ∈ jobs sample_job_store → job_id j ≠ 8).
Proof.
  split; [reflexivity|].
  apply (get_job_type_error sample_json_loads sample_units sample_job_store 8).
  reflexivity.
Defined.

Lemma query_jobs_returns_witness :
  jobs_json_ok sample_json_loads sample_job_store = true
  ∧ list_given None = false
  ∧ ∃ records,
      query_jobs sample_json_loads sample_units sample_where_text sample_midnight sample_job_store
        None (Some ["alice"]%string) None None (Some 19754) None None 0 10 = Ok records
      ∧ (length records ≤ 10)%nat.
Proof.
  split; [reflexivity|]. split; [reflexivity|].
  destruct (query_jobs_returns sample_json_loads sample_units sample_where_text sample_midnight
              sample_job_store None (Some ["alice"]%string) None None (Some 19754) None
              0 10) as (records & Hrecords & Hlen & _); [reflexivity | reflexivity |].
  by exists records.
Defined.

Lemma query_jobs_bad_row_witness :
  sample_bad_job ∈ offset_limit 0 10 (select_where [] (jobs sample_bad_store))
  ∧ json_column_ok sample_json_loads (job_hardware_config sample_bad_job)
    && json_column_ok sample_json_loads (job_provenance sample_bad_job) = false
  ∧ query_jobs sample_json_loads sample_units sample_where_text sample_midnight sample_bad_store
      None None None None None None None 0 10 = Raise JSONDecodeError.
Proof.
  split; [by right; left|]. split; [reflexivity|].
  apply (query_jobs_bad_row sample_json_loads sample_units sample_where_text sample_midnight
           sample_bad_store None None None None None None 0 10 [] sample_bad_job);
    [reflexivity | by right; left | reflexivity].
Defined.

(** *** Logs and comments *)

Lemma get_log_cases (st : store) :
  (∀ job_id', get_log st job_id' = Raise TypeError
              ↔ ∀ l, l ∈ logs st → int_col_eq (log_job_id l) job_id' = false)
  ∧ (∀ l, l ∈ logs st →
          ∃ d, get_log st (PInt (log_job_id l)) = Ok (PDict d)
               ∧ d !! "job_id"%string = Some (PInt (log_job_id l))
               ∧ is_Some (d !! "content"%string)).
Proof.
  split.
  - intros job_id'. split; [|apply get_log_absent].
    unfold get_log, fetch_one, select_where.
    destruct (head (List.filter _ (logs st))) as [row|] eqn:Hrow; [done|].
    intros _ l Hl. pose proof (proj1 (head_filter_none _ _) Hrow l Hl) as Hnone.
    simpl in Hnone. by rewrite andb_true_r in Hnone.
  - intros l Hl. unfold get_log, fetch_one, select_where.
    destruct (head (List.filter _ (logs st))) as [row|] eqn:Hrow.
    + apply head_filter_holds in Hrow as [_ Hrow]. simpl in Hrow.
      rewrite andb_true_r in Hrow. apply bool_decide_eq_true in Hrow.
      eexists. split; [done|]. split; [by rewrite <- Hrow | by eexists].
    + pose proof (proj1 (head_filter_none _ _) Hrow l Hl) as Hnone.
      simpl in Hnone. by rewrite bool_decide_eq_true_2 in Hnone.
Qed.

(** X10: for an integer of the range of the key column, [get_log] raises
    [TypeError] exactly when no log row has it as job identifier; when one
    has, it returns a record that carries this identifier and a content. *)
Theorem get_log_outcome (st : store) (z : Z) :
  int4 z = true →
  (get_log st (PInt z) = Raise TypeError ↔ ∀ l, l ∈ logs st → log_job_id l ≠ z)
  ∧ (∀ l, l ∈ logs st → log_job_id l = z →
          ∃ d, get_log st (PInt z) = Ok (PDict d)
               ∧ d !! "job_id"%string = Some (PInt z)
               ∧ is_Some (d !! "content"%string)).
Proof.
  intros _. destruct (get_log_cases st) as [Habsent Hfound]. split.
  - rewrite Habsent. split; intros Habs l Hl; specialize (Habs l Hl); simpl in *.
    + by apply bool_decide_eq_false in Habs.
    + by apply bool_decide_eq_false.
  - intros l Hl <-. by apply Hfound.
Qed.

Lemma get_log_outcome_witness :
  int4 7 = true
  ∧ ∃ d, get_log sample_uuid_store (PInt 7) = Ok (PDict d)
         ∧ d !! "job_id"%string = Some (PInt 7).
Proof.
  split; [reflexivity|].
  destruct (get_log_outcome sample_uuid_store 7 eq_refl) as [_ Hfound].
  destruct (Hfound {| log_job_id := 7; log_content := "started" |})
    as (d & Hd & Hid & _); [by left | reflexivity |].
  by exists d.
Defined.


(** *** Projects *)

Lemma mapM_result_fmap {A B} (f : A → result B) (g : A → B) (l : list A) :
  (∀ x, f x = Ok (g x)) → mapM f l = Ok (g <$> l).
Proof.
  intros Hfg. induction l as [|x l IH]; [done|].
  cbn. fold (mapM f l). by rewrite Hfg, IH.
Qed.

(** The record the module gives out for a project row. *)
#[local] Abbreviation public_project row :=
  (<["id"%string := PStr (context row)]> (delete "context"%string (dict_of_project row))).

Lemma transform_project_fields_row (row : project_row) :
  transform_project_fields (dict_of_project row) = Ok (public_project row).
Proof. reflexivity. Qed.

Lemma get_project_row (st : store) (project_id : pyval) :
  get_project st project_id
  = match head (List.filter (holds [λ p, str_col_eq (context p) project_id])
                  (projects st)) with
    | Some row => Ok (PDict (public_project row))
    | None => Ok PNone
    end.
Proof.
  unfold get_project, fetch_one, select_where.
  destruct (head _) as [row|]; [|done]. by rewrite transform_project_fields_row.
Qed.

Lemma str_col_eq_true (c : string) (v : pyval) :
  str_col_eq c v = true ↔ v = PStr c.
Proof.
  destruct v; simpl; try (split; [done | intros [=]]).
  rewrite bool_decide_eq_true. split; [by intros -> | by intros [= ->]].
Qed.

Lemma int_col_eq_true (c : Z) (v : pyval) :
  int_col_eq c v = true ↔ v = PInt c.
Proof.
  destruct v; simpl; try (split; [done | intros [=]]).
  rewrite bool_decide_eq_true. split; [by intros -> | by intros [= ->]].
Qed.

Lemma get_project_cases (st : store) (project_id : pyval) :
  (get_project st project_id = Ok PNone
   ↔ ∀ p, p ∈ projects st → str_col_eq (context p) project_id = false)
  ∧ (get_project st project_id = Ok PNone
     ∨ ∃ d, get_project st project_id = Ok (PDict d)
            ∧ d !! "id"%string = Some project_id
            ∧ d !! "context"%string = None).
Proof.
  rewrite get_project_row.
  destruct (head _) as [row|] eqn:Hrow.
  - apply head_filter_holds in Hrow as [Hin Hrow]. simpl in Hrow.
    rewrite andb_true_r in Hrow. split.
    + split; [done|]. intros Habs. by rewrite Habs in Hrow.
    + right. eexists. split; [done|]. apply str_col_eq_true in Hrow as ->.
      split; [by rewrite lookup_insert_eq|]. done.
  - split; [|by left]. split; [|done]. intros _ p Hp.
    pose proof (proj1 (head_filter_none _ _) Hrow p Hp) as Hnone.
    simpl in Hnone. by rewrite andb_true_r in Hnone.
Qed.

(** X12: for the text of a UUID, [get_project] returns [None] exactly when
    no project has it as identifier; the record it returns otherwise
    carries that identifier under [id] and has no [context] key. *)
Theorem get_project_outcome (st : store) (project_id : string) :
  uuid_text project_id = true →
  (get_project st (PStr project_id) = Ok PNone
   ↔ ∀ p, p ∈ projects st → context p ≠ project_id)
  ∧ (get_project st (PStr project_id) = Ok PNone
     ∨ ∃ d, get_project st (PStr project_id) = Ok (PDict d)
            ∧ d !! "id"%string = Some (PStr project_id)
            ∧ d !! "context"%string = None).
Proof.
  intros _. destruct (get_project_cases st (PStr project_id)) as [Habsent Hcases].
  split; [|done]. rewrite Habsent.
  split; intros Habs p Hp; specialize (Habs p Hp); simpl in *.
  - by apply bool_decide_eq_false in Habs.
  - by apply bool_decide_eq_false.
Qed.

Lemma get_project_outcome_witness :
  uuid_text sample_uuid = true
  ∧ ∃ d, get_project sample_uuid_store (PStr sample_uuid) = Ok (PDict d)
         ∧ d !! "id"%string = Some (PStr sample_uuid)
         ∧ d !! "context"%string = None.
Proof.
  split; [reflexivity|].
  destruct (get_project_outcome sample_uuid_store sample_uuid eq_refl)
    as [_ [Hnone | Hfound]]; [discriminate Hnone | exact Hfound].
Defined.

(** X13: a project whose [accepted] flag is null passes the clauses of no
    status; a project that is not accepted and has a decision date but no
    submission date passes those of [rejected] and those of [in_prep]. *)
Theorem status_filters_outside_invariant (p : project_row) :
  (accepted p = None → ∀ status, holds (status_filters status) p = false)
  ∧ (accepted p = Some false → decision_date p ≠ None → submission_date p = None →
     holds (status_filters ProjectStatus.rejected) p = true
     ∧ holds (status_filters ProjectStatus.in_prep) p = true).
Proof.
  destruct p as [? ? ? ? ? ? ? ? acc sub dec]; simpl. split.
  - intros -> status. by destruct status.
  - intros -> Hdec ->. by destruct dec.
Qed.

Lemma project_filters_sound status collab_id owner_id
    (filters : list (project_row → bool)) (p : project_row) :
  project_filters status collab_id owner_id = Ok filters →
  holds filters p = true →
  (∀ s, status = Some s → holds (status_filters s) p = true)
  ∧ (∀ l, collab_id = Some l → l ≠ [] → collab p ∈ l)
  ∧ (∀ l, owner_id = Some l → l ≠ [] → owner p ∈ l).
Proof.
  unfold project_filters. rewrite list_filter_site. cbn [mbind result_bind].
  rewrite list_filter_site. cbn [mbind result_bind].
  intros [= <-] Hholds.
  apply holds_site in Hholds as [Hholds Howner].
  apply holds_site in Hholds as [Hholds Hcollab].
  split_and!.
  - by intros s ->.
  - intros l Hl Hne. destruct (list_given_some _ _ Hl Hne) as [Hg <-].
    by apply (bool_decide_eq_true_1 _), Hcollab.
  - intros l Hl Hne. destruct (list_given_some _ _ Hl Hne) as [Hg <-].
    by apply (bool_decide_eq_true_1 _), Howner.
Qed.

Lemma query_projects_rows (st : store) status collab_id owner_id
    (from_index size : nat) filters :
  project_filters status collab_id owner_id = Ok filters →
  query_projects st status collab_id owner_id from_index size
  = Ok ((λ row, public_project row)
          <$> offset_limit from_index size (select_where filters (projects st))).
Proof.
  intros Hfilters. unfold query_projects. rewrite Hfilters. cbn [mbind result_bind].
  rewrite (mapM_result_fmap _ (λ row, public_project row))
    by apply transform_project_fields_row.
  destruct filters; [by rewrite select_where_nil | done].
Qed.

(** X14: [query_projects] never raises.  It returns at most [size] records;
    each is the record of a stored project, with its identifier under [id],
    that passes the clauses of the status given and is in every list given
    for [collab_id] and [owner_id]. *)
Theorem query_projects_returns (st : store) status collab_id owner_id
    (from_index size : nat) :
  ∃ records,
    query_projects st status collab_id owner_id from_index size = Ok records
    ∧ (length records ≤ size)%nat
    ∧ Forall (λ d, ∃ p,
                p ∈ projects st
                ∧ d = <["id"%string := PStr (context p)]>
                        (delete "context"%string (dict_of_project p))
                ∧ (∀ s, status = Some s → holds (status_filters s) p = true)
                ∧ (∀ l, collab_id = Some l → l ≠ [] → collab p ∈ l)
                ∧ (∀ l, owner_id = Some l → l ≠ [] → owner p ∈ l))
             records.
Proof.
  destruct (project_filters_total status collab_id owner_id) as [filters Hfilters].
  rewrite (query_projects_rows _ _ _ _ _ _ _ Hfilters).
  eexists. split; [done|]. split.
  - rewrite length_fmap. apply length_offset_limit.
  - apply Forall_fmap, Forall_forall. intros p Hp. exists p.
    apply elem_of_offset_limit, elem_of_select_where in Hp as [Hp Hholds].
    destruct (project_filters_sound _ _ _ _ p Hfilters Hholds) as (? & ? & ?).
    by split_and!.
Qed.

(** X15: consecutive pages of [query_projects] are the two halves of the
    page of their joint size: paging skips no project and repeats none. *)
Theorem query_projects_pages (st : store) status collab_id owner_id (i n m : nat) :
  ∃ first second,
    query_projects st status collab_id owner_id i n = Ok first
    ∧ query_projects st status collab_id owner_id (i + n) m = Ok second
    ∧ query_projects st status collab_id owner_id i (n + m) = Ok (first ++ second).
Proof.
  destruct (project_filters_total status collab_id owner_id) as [filters Hfilters].
  rewrite !(query_projects_rows _ _ _ _ _ _ _ Hfilters).
  eexists _, _. split; [done|]. split; [done|].
  by rewrite <- fmap_app, offset_limit_pages.
Qed.






Lemma filter_filter_implied {A} (f g : A → bool) (l : list A) :
  (∀ a, f a = true → g a = true) →
  List.filter f (List.filter g l) = List.filter f l.
Proof.
  intros Himp. induction l as [|a l IH]; simpl; [done|].
  destruct (g a) eqn:Hg; simpl.
  - by rewrite IH.
  - destruct (f a) eqn:Hf; [|done]. apply Himp in Hf. congruence.
Qed.







Lemma delete_project_allowed (st : store) (project_id : string) :
  (∀ q, q ∈ quotas st → q_project_id q ≠ project_id) →
  delete_project st (PStr project_id)
  = (Ok PNone,
     set_projects st
       (delete_where [λ p, str_col_eq (context p) (PStr project_id)] (projects st))).
Proof.
  intros Hnone. unfold delete_project.
  destruct (existsb (owns_quota st) _) eqn:Hreferred; [|done].
  apply delete_project_refused in Hreferred as [_ (q & Hq & Hown)].
  by destruct (Hnone q Hq).
Qed.

(** X20: for the text of a UUID that no quota refers to, [delete_project]
    returns [None]; [get_project] for the identifier then returns [None];
    [get_project] for the text of any other UUID answers as before; and a
    second [delete_project] returns [None] and changes nothing. *)
Theorem delete_project_get_project (st : store) (project_id : string) :
  uuid_text project_id = true →
  (∀ q, q ∈ quotas st → q_project_id q ≠ project_id) →
  (delete_project st (PStr project_id)).1 = Ok PNone
  ∧ get_project (delete_project st (PStr project_id)).2 (PStr project_id) = Ok PNone
  ∧ (∀ other, uuid_text other = true → other ≠ project_id →
              get_project (delete_project st (PStr project_id)).2 (PStr other)
              = get_project st (PStr other))
  ∧ delete_project (delete_project st (PStr project_id)).2 (PStr project_id)
    = (Ok PNone, (delete_project st (PStr project_id)).2).
Proof.
  intros _ Hnone. rewrite !(delete_project_allowed st project_id Hnone).
  cbn [fst snd]. split_and!.
  - done.
  - apply get_project_absent. intros p. cbn [set_projects projects].
    unfold delete_where. rewrite list_elem_of_In, filter_In. simpl.
    rewrite andb_true_r. intros [_ Hp]. by apply negb_true_iff in Hp.
  - intros other _ Hother. rewrite !get_project_row.
    cbn [set_projects projects]. unfold delete_where.
    rewrite filter_filter_implied; [done|]. intros p. simpl. rewrite !andb_true_r.
    intros Hp%bool_decide_eq_true. apply negb_true_iff, bool_decide_eq_false.
    congruence.
  - rewrite delete_project_allowed by done. f_equal.
    cbn [set_projects projects]. unfold delete_where.
    rewrite filter_filter_implied by done. by destruct st.
Qed.

Lemma delete_project_get_project_witness :
  uuid_text sample_uuid = true
  ∧ (∀ q, q ∈ quotas sample_uuid_store → q_project_id q ≠ sample_uuid)
  ∧ (delete_project sample_uuid_store (PStr sample_uuid)).1 = Ok PNone
  ∧ get_project (delete_project sample_uuid_store (PStr sample_uuid)).2
      (PStr sample_uuid) = Ok PNone.
Proof.
  assert (∀ q, q ∈ quotas sample_uuid_store → q_project_id q ≠ sample_uuid) as Hnone.
  { intros q Hq. apply list_elem_of_singleton in Hq as ->. discriminate. }
  split; [reflexivity|]. split; [exact Hnone|].
  destruct (delete_project_get_project sample_uuid_store sample_uuid eq_refl Hnone)
    as (Hreturn & Hgone & _).
  by split.
Defined.

(** *** Quotas: listing, lookup and the writers *)


Lemma get_quota_row (st : store) (quota_id project_id : pyval) :
  get_quota st quota_id project_id
  = match head (List.filter
                  (holds [(λ q, int_col_eq (q_id q) quota_id);
                          (λ q, str_col_eq (q_project_id q) project_id)])
                  (quotas st)) with
    | Some row => PDict (dict_of_quota row)
    | None => PNone
    end.
Proof. reflexivity. Qed.

Lemma holds_quota_pair (quota_id project_id : pyval) (q : quota_row) :
  holds [(λ q, int_col_eq (q_id q) quota_id);
         (λ q, str_col_eq (q_project_id q) project_id)] q = true
  ↔ quota_id = PInt (q_id q) ∧ project_id = PStr (q_project_id q).
Proof.
  simpl. rewrite andb_true_r, andb_true_iff.
  by rewrite int_col_eq_true, str_col_eq_true.
Qed.

Lemma get_quota_cases (st : store) (quota_id project_id : pyval) :
  (get_quota st quota_id project_id = PNone
   ↔ ∀ q, q ∈ quotas st →
          ¬ (quota_id = PInt (q_id q) ∧ project_id = PStr (q_project_id q)))
  ∧ (∀ d, get_quota st quota_id project_id = PDict d →
          d !! "id"%string = Some quota_id
          ∧ d !! "project_id"%string = Some project_id).
Proof.
  rewrite get_quota_row.
  destruct (head (List.filter _ (quotas st))) as [row|] eqn:Hrow.
  - apply head_filter_holds in Hrow as [Hin Hrow].
    apply holds_quota_pair in Hrow as [-> ->]. split.
    + split; [done|]. intros Habs. by destruct (Habs row Hin).
    + by intros d [= <-].
  - split; [|done]. split; [|done]. intros _ q Hq Hpair%holds_quota_pair.
    pose proof (proj1 (head_filter_none _ _) Hrow q Hq). congruence.
Qed.

(** X22: [get_quota] is keyed by the pair.  For an integer of the range of
    the key column and the text of a UUID, the record it returns carries
    that key and that project identifier, and it returns [None] exactly
    when no quota has both; the quota of another project is never
    returned. *)
Theorem get_quota_pair (st : store) (quota_id : Z) (project_id : string) :
  int4 quota_id = true →
  uuid_text project_id = true →
  (get_quota st (PInt quota_id) (PStr project_id) = PNone
   ↔ ∀ q, q ∈ quotas st → ¬ (q_id q = quota_id ∧ q_project_id q = project_id))
  ∧ (∀ d, get_quota st (PInt quota_id) (PStr project_id) = PDict d →
          d !! "id"%string = Some (PInt quota_id)
          ∧ d !! "project_id"%string = Some (PStr project_id)).
Proof.
  intros _ _.
  destruct (get_quota_cases st (PInt quota_id) (PStr project_id)) as [Habsent Hfound].
  split; [|done]. rewrite Habsent.
  split; intros Habs q Hq; specialize (Habs q Hq).
  - intros [<- <-]. by apply Habs.
  - intros [[= Hkey] [= Hproject]]. by apply Habs.
Qed.

Lemma get_quota_pair_witness :
  int4 1 = true
  ∧ uuid_text sample_uuid = true
  ∧ get_quota sample_uuid_store (PInt 1) (PStr sample_uuid) = PNone.
Proof.
  split; [reflexivity|]. split; [reflexivity|].
  apply (get_quota_pair sample_uuid_store 1 sample_uuid eq_refl eq_refl).
  intros q Hq. apply list_elem_of_singleton in Hq as ->. by intros [_ [=]].
Defined.


Lemma post_quotas_keys_below_seq (st : store) (project_id : string)
    (quota : quota_submission) :
  quota_keys_below_seq st = true →
  quota_keys_below_seq (post_quotas st project_id quota).2 = true.
Proof.
  unfold quota_keys_below_seq, post_quotas. rewrite forallb_forall. intros Hkeys.
  assert (forallb (λ q, bool_decide (q_id q < quotas_id_seq st + 1)) (quotas st) = true)
    as Hold.
  { apply forallb_forall. intros q Hq%Hkeys. apply bool_decide_eq_true in Hq.
    apply bool_decide_eq_true. lia. }
  destruct (project_stored st project_id); cbn [snd quotas quotas_id_seq]; [|done].
  rewrite forallb_app, Hold. simpl. rewrite bool_decide_eq_true_2 by lia. done.
Qed.


(** X24: each of the four functions that write quotas leaves the quota keys
    below the next value of the sequence when they were. *)
Theorem quota_writers_keep_keys_below_seq (st : store) :
  quota_keys_below_seq st = true →
  (∀ project_id quota,
     quota_keys_below_seq (post_quotas st project_id quota).2 = true)
  ∧ (∀ project_id quota quota_id,
       quota_keys_below_seq (put_quotas st project_id quota quota_id).2 = true)
  ∧ (∀ quota_id project_id,
       quota_keys_below_seq (query_deleteonequota st quota_id project_id).2 = true)
  ∧ (∀ project_id,
       quota_keys_below_seq (delete_quotas_from_project st project_id).2 = true).
Proof.
  intros Hkeys. split_and!.
  - intros. by apply post_quotas_keys_below_seq.
  - intros. unfold quota_keys_below_seq in *.
    cbn [put_quotas snd set_quotas quotas quotas_id_seq]. unfold update_where.
    rewrite forallb_forall in Hkeys. apply forallb_forall.
    intros q' (q & -> & Hq)%list_elem_of_In%list_elem_of_fmap.
    apply list_elem_of_In, Hkeys in Hq. by destruct (holds _ q).
  - intros. unfold quota_keys_below_seq in *.
    cbn [query_deleteonequota snd set_quotas quotas quotas_id_seq].
    unfold delete_where. rewrite forallb_forall in Hkeys. apply forallb_forall.
    intros q [Hq _]%filter_In. by apply Hkeys.
  - intros. by rewrite delete_quotas_from_project_store.
Qed.

Lemma quota_writers_keep_keys_below_seq_witness :
  quota_keys_below_seq sample_store = true
  ∧ quota_keys_below_seq
      (post_quotas sample_store sample_uuid
         {| qs_limit := 50%float; qs_platform := "BrainScaleS";
            qs_units := "wafer-hours" |}).2 = true.
Proof.
  split; [reflexivity|].
  by apply (quota_writers_keep_keys_below_seq sample_store eq_refl).
Defined.






(** *** Permissions *)

(** X29: [can_edit] answers [True] exactly when the user is in the editor
    or the administrator team of the collab, and [None] otherwise: it never
    answers [False]. *)
Theorem can_edit_outcome (self : OAuth.User) (collab_id : string) :
  (OAuth.can_edit self collab_id = PBool true
   ↔ OAuth.team_name collab_id "editor" ∈ OAuth.roles_team self
     ∨ OAuth.team_name collab_id "administrator" ∈ OAuth.roles_team self)
  ∧ (OAuth.can_edit self collab_id = PBool true ∨ OAuth.can_edit self collab_id = PNone)
  ∧ OAuth.can_edit self collab_id ≠ PBool false.
Proof.
  unfold OAuth.can_edit, OAuth.in_a_team. cbn [existsb]. rewrite orb_false_r.
  destruct (decide (OAuth.team_name collab_id "editor" ∈ OAuth.roles_team self))
    as [He|He];
    destruct (decide (OAuth.team_name collab_id "administrator"
                      ∈ OAuth.roles_team self)) as [Ha|Ha];
    rewrite ?(bool_decide_eq_true_2 _ He), ?(bool_decide_eq_false_2 _ He),
      ?(bool_decide_eq_true_2 _ Ha), ?(bool_decide_eq_false_2 _ Ha); cbn [orb];
    (split_and!; [split; [by eauto | try done; by intros [|]] | by eauto | done]).
Qed.

(** X30: a user who can edit a collab can view it, whatever the collab
    service would answer; a member of the viewer team alone can view and
    cannot edit; for a user in none of the three teams the answer of
    [can_view] is what the collab service gives. *)
Theorem can_edit_can_view (public : OAuth.outcome pyval) (self : OAuth.User)
    (collab_id : string) :
  (OAuth.can_edit self collab_id = PBool true →
   OAuth.can_view public self collab_id = OAuth.Return (PBool true))
  ∧ (OAuth.team_name collab_id "viewer" ∈ OAuth.roles_team self →
     OAuth.can_view public self collab_id = OAuth.Return (PBool true))
  ∧ (OAuth.in_a_team self collab_id ["viewer"; "editor"; "administrator"]%string = false →
     OAuth.can_view public self collab_id = public
     ∧ OAuth.can_edit self collab_id = PNone).
Proof.
  unfold OAuth.can_edit, OAuth.can_view, OAuth.in_a_team. cbn [existsb].
  split_and!.
  - destruct (bool_decide (OAuth.team_name collab_id "viewer" ∈ _)); [done|].
    cbn [orb]. by destruct (_ || _).
  - intros Hv. by rewrite (bool_decide_eq_true_2 _ Hv).
  - intros Hnone. rewrite Hnone. split; [done|].
    apply orb_false_iff in Hnone as [_ Hnone]. by rewrite Hnone.
Qed.

Example can_edit_sample :
  OAuth.can_edit {| OAuth.roles_team := ["collab-c-1-editor"; "collab-c-2-viewer"] |} "c-1"
  = PBool true
  ∧ OAuth.can_edit {| OAuth.roles_team := ["collab-c-1-editor"; "collab-c-2-viewer"] |} "c-2"
    = PNone
  ∧ OAuth.can_view (OAuth.HTTPException 400 "Invalid collab id")
      {| OAuth.roles_team := ["collab-c-1-editor"; "collab-c-2-viewer"] |} "c-2"
    = OAuth.Return (PBool true)
  ∧ OAuth.can_view (OAuth.Return (PBool false))
      {| OAuth.roles_team := ["collab-c-1-editor"; "collab-c-2-viewer"] |} "c-3"
    = OAuth.Return (PBool false).
Proof. by split_and!. Qed.

Example get_comments_sample :
  length (get_comments sample_comments (PInt 7)) = 2%nat
  ∧ get_comments sample_comments (PInt 8) = [].
Proof. by split. Qed.
